(** * LISA cost forecast dashboard: the forecast engine of [dashboard.py]

    The script reads seventeen integer inputs from the sidebar, builds a
    year-indexed table of populations and costs with numpy and pandas,
    derives totals and per-unit ratios, and exports the table together
    with a short list of assumptions to a two-sheet workbook.

    Numbers.  The sidebar widgets are all created with integer bounds, so
    every input is a Python [int], modelled by [Z].  Every float64 value is
    modelled by [float64]: an exact rational or one of the IEEE special
    values.  Arithmetic on finite values is exact (no rounding, no
    overflow), the special values follow the IEEE rules.  The cast of a
    float array to integers keeps the int64 range: a value outside it is
    stored as the least int64.  The inputs themselves are taken as exact
    integers (a widget delivers integers far inside the int64 range). *)

From Stdlib Require Import ZArith QArith Qround Qpower List String Bool Lia Lqa.
Import ListNotations.

Local Open Scope string_scope.
Local Open Scope list_scope.

(** ** Exceptions *)

Inductive exception : Type :=
| ValueError   (* numpy broadcasting, pandas length checks *)
| KeyError     (* a column label that is not in the frame *)
| TypeError.   (* arithmetic on a column of strings *)

Inductive result (A : Type) : Type :=
| Ok (x : A)
| Raise (e : exception).

Arguments Ok {A} x.
Arguments Raise {A} e.

Definition bind {A B : Type} (m : result A) (k : A -> result B) : result B :=
  match m with
  | Ok x => k x
  | Raise e => Raise e
  end.

Notation "x <- m ;; k" := (bind m (fun x => k))
  (at level 61, m at next level, right associativity).

Fixpoint mapM {A B : Type} (f : A -> result B) (l : list A) : result (list B) :=
  match l with
  | [] => Ok []
  | x :: t => y <- f x ;; ys <- mapM f t ;; Ok (y :: ys)
  end.

(** ** float64 *)

Inductive float64 : Type :=
| Finite (q : Q)
| PosInf
| NegInf
| NaN.

Definition of_int (z : Z) : float64 := Finite (inject_Z z).

(** Sign of a rational: [Gt] positive, [Lt] negative, [Eq] zero. *)
Definition Qsign (q : Q) : comparison := (Qnum q ?= 0)%Z.

Definition inf_of_sign (s : comparison) : float64 :=
  match s with
  | Gt => PosInf
  | Lt => NegInf
  | Eq => NaN
  end.

Definition fadd (a b : float64) : float64 :=
  match a, b with
  | NaN, _ | _, NaN => NaN
  | PosInf, NegInf | NegInf, PosInf => NaN
  | PosInf, _ | _, PosInf => PosInf
  | NegInf, _ | _, NegInf => NegInf
  | Finite x, Finite y => Finite (x + y)
  end.

Definition fmul (a b : float64) : float64 :=
  match a, b with
  | NaN, _ | _, NaN => NaN
  | Finite x, Finite y => Finite (x * y)
  | Finite x, PosInf | PosInf, Finite x => inf_of_sign (Qsign x)
  | Finite x, NegInf | NegInf, Finite x => inf_of_sign (CompOpp (Qsign x))
  | PosInf, PosInf | NegInf, NegInf => PosInf
  | PosInf, NegInf | NegInf, PosInf => NegInf
  end.

(** Division.  A finite value divided by zero gives an infinity with the
    sign of the numerator, and zero divided by zero gives NaN: numpy does
    not raise. *)
Definition fdiv (a b : float64) : float64 :=
  match a, b with
  | NaN, _ | _, NaN => NaN
  | Finite x, Finite y =>
      match Qsign y with
      | Eq => inf_of_sign (Qsign x)
      | _ => Finite (x / y)
      end
  | Finite _, _ => Finite 0
  | PosInf, Finite y => match Qsign y with Lt => NegInf | _ => PosInf end
  | NegInf, Finite y => match Qsign y with Lt => PosInf | _ => NegInf end
  | _, _ => NaN
  end.

(** [a ** k] for an integer exponent, as C's [pow]. *)
Definition fpow (a : float64) (k : Z) : float64 :=
  match k with
  | Z0 => Finite 1
  | _ =>
      match a with
      | NaN => NaN
      | Finite x =>
          match Qsign x, k with
          | Eq, Zneg _ => PosInf
          | _, _ => Finite (x ^ k)
          end
      | PosInf => match k with Zneg _ => Finite 0 | _ => PosInf end
      | NegInf =>
          match k with
          | Zneg _ => Finite 0
          | _ => if Z.odd k then NegInf else PosInf
          end
      end
  end.

(** [astype(int)]: truncation toward zero into an int64.  NaN, the
    infinities and the values whose truncation is outside the int64 range
    have no int64 value; numpy on x86-64 stores the least int64 for them. *)
Definition int64_min : Z := (- 2 ^ 63)%Z.

Definition int64_max : Z := (2 ^ 63 - 1)%Z.

Definition Qtrunc (q : Q) : Z := Z.quot (Qnum q) (Zpos (Qden q)).

Definition astype_int (x : float64) : Z :=
  match x with
  | Finite q =>
      let t := Qtrunc q in
      if ((int64_min <=? t) && (t <=? int64_max))%Z then t else int64_min
  | _ => int64_min
  end.

(** pandas' sums skip NaN. *)
Definition skipna (x : float64) : float64 :=
  match x with
  | NaN => Finite 0
  | _ => x
  end.

(** ** Python and numpy sequences *)

(** [range(lo, hi)], also used for [np.arange]. *)
Definition range (lo hi : Z) : list Z :=
  map (fun k => lo + Z.of_nat k)%Z (seq 0 (Z.to_nat (hi - lo))).

Definition len {A : Type} (l : list A) : Z := Z.of_nat (List.length l).

Fixpoint zip_with {A B C : Type} (f : A -> B -> C) (xs : list A) (ys : list B)
  : list C :=
  match xs, ys with
  | x :: xs', y :: ys' => f x y :: zip_with f xs' ys'
  | _, _ => []
  end.

(** Element-wise binary operation on two one-dimensional arrays with numpy's
    broadcasting: equal shapes pair up, a shape of one stretches to the
    other shape (also to the empty one), anything else is a ValueError. *)
Definition broadcast {A : Type} (f : A -> A -> A) (xs ys : list A)
  : result (list A) :=
  if Nat.eqb (List.length xs) (List.length ys) then Ok (zip_with f xs ys)
  else
    match xs, ys with
    | [x], _ => Ok (map (f x) ys)
    | _, [y] => Ok (map (fun x => f x y) xs)
    | _, _ => Raise ValueError
    end.

(** ** pandas *)

Inductive Series : Type :=
| Int64 (l : list Z)
| Float64 (l : list float64)
| Object (l : list string).

Definition Series_len (s : Series) : nat :=
  match s with
  | Int64 l => List.length l
  | Float64 l => List.length l
  | Object l => List.length l
  end.

(** A frame is its columns in insertion order. *)
Definition DataFrame : Type := list (string * Series).

Definition n_rows (d : DataFrame) : nat :=
  match d with
  | [] => O
  | (_, s) :: _ => Series_len s
  end.

(** [pd.DataFrame(dict)]: all columns must have one length. *)
Definition pd_DataFrame (cols : list (string * Series)) : result DataFrame :=
  match cols with
  | [] => Ok []
  | (_, s) :: rest =>
      if forallb (fun c => Nat.eqb (Series_len (snd c)) (Series_len s)) rest
      then Ok cols
      else Raise ValueError
  end.

(** [d[name]] *)
Fixpoint getitem (d : DataFrame) (name : string) : result Series :=
  match d with
  | [] => Raise KeyError
  | (k, s) :: rest => if String.eqb k name then Ok s else getitem rest name
  end.

Fixpoint replace_column (d : DataFrame) (name : string) (s : Series)
  : option DataFrame :=
  match d with
  | [] => None
  | (k, old) :: rest =>
      if String.eqb k name then Some ((k, s) :: rest)
      else option_map (cons (k, old)) (replace_column rest name s)
  end.

(** [d[name] = s]: replaces the column in place or appends a new one.  The
    script only assigns Series computed from columns of the same frame, so
    the lengths always agree; pandas would re-index a Series of another
    length, which is not modelled and reported as an error here. *)
Definition setitem (d : DataFrame) (name : string) (s : Series)
  : result DataFrame :=
  if negb (Nat.eqb (Series_len s) (n_rows d)) then Raise ValueError
  else
    match replace_column d name s with
    | Some d' => Ok d'
    | None => Ok (d ++ [(name, s)])
    end.

Definition to_float (s : Series) : result (list float64) :=
  match s with
  | Int64 l => Ok (map of_int l)
  | Float64 l => Ok l
  | Object _ => Raise TypeError
  end.

(** [d[names].sum(axis=1)] *)
Definition sum_axis1 (d : DataFrame) (names : list string) : result Series :=
  cols <- mapM (fun name => s <- getitem d name ;; to_float s) names ;;
  Ok (Float64 (fold_left (fun acc col => zip_with fadd acc (map skipna col))
                         cols (repeat (Finite 0) (n_rows d)))).

(** Arithmetic of two Series aligns them on their index: positions present
    in only one operand give NaN. *)
Fixpoint align_with (f : float64 -> float64 -> float64) (xs ys : list float64)
  : list float64 :=
  match xs, ys with
  | [], _ => map (fun _ => NaN) ys
  | _, [] => map (fun _ => NaN) xs
  | x :: xs', y :: ys' => f x y :: align_with f xs' ys'
  end.

Definition Series_binop (f : float64 -> float64 -> float64) (s t : Series)
  : result Series :=
  xs <- to_float s ;;
  ys <- to_float t ;;
  Ok (Float64 (align_with f xs ys)).

Definition Series_add : Series -> Series -> result Series := Series_binop fadd.
Definition Series_div : Series -> Series -> result Series := Series_binop fdiv.

(** ** The sidebar inputs *)

Record Assumptions : Type := mkAssumptions {
  start_year : Z;
  end_year : Z;
  customers_start : Z;
  customers_growth : Z;
  vehicles_per_customer : Z;
  riders_per_vehicle : Z;
  cost_per_vehicle_compute : Z;
  cost_per_vehicle_db : Z;
  cost_per_vehicle_bigquery : Z;
  cost_per_vehicle_streaming : Z;
  cost_per_vehicle_monitoring : Z;
  cost_per_user_auth : Z;
  cost_per_user_support : Z;
  staff_support_per_customer : Z;
  staff_devops_per_customer : Z;
  infra_increase : Z;
  staff_increase : Z
}.

(** The values the widgets start with. *)
Definition default_assumptions : Assumptions :=
  mkAssumptions 2025 2030 10 50 50 10 50 15 10 8 5 1 1 1000 2000 5 5.

(** The bounds the widgets enforce ([min_value], [max_value], slider ends). *)
Record sidebar_range (a : Assumptions) : Prop := {
  sr_start : (2025 <= start_year a <= 2100)%Z;
  sr_end : (start_year a + 1 <= end_year a <= 2100)%Z;
  sr_customers : (1 <= customers_start a)%Z;
  sr_growth : (0 <= customers_growth a <= 200)%Z;
  sr_vehicles : (1 <= vehicles_per_customer a)%Z;
  sr_riders : (1 <= riders_per_vehicle a)%Z;
  sr_compute : (0 <= cost_per_vehicle_compute a)%Z;
  sr_db : (0 <= cost_per_vehicle_db a)%Z;
  sr_bigquery : (0 <= cost_per_vehicle_bigquery a)%Z;
  sr_streaming : (0 <= cost_per_vehicle_streaming a)%Z;
  sr_monitoring : (0 <= cost_per_vehicle_monitoring a)%Z;
  sr_auth : (0 <= cost_per_user_auth a)%Z;
  sr_support : (0 <= cost_per_user_support a)%Z;
  sr_staff_support : (0 <= staff_support_per_customer a)%Z;
  sr_staff_devops : (0 <= staff_devops_per_customer a)%Z;
  sr_infra : (0 <= infra_increase a <= 50)%Z;
  sr_staff : (0 <= staff_increase a <= 50)%Z
}.

(** ** Data calculation *)

(** [1 + pct / 100], Python's true division of two ints. *)
Definition one_plus_percent (pct : Z) : float64 :=
  fadd (of_int 1) (fdiv (of_int pct) (of_int 100)).

Definition apply_inflation (base_cost : list float64) (rate_percent : Z)
  (years_index : list Z) : result (list float64) :=
  broadcast fmul base_cost (map (fpow (one_plus_percent rate_percent)) years_index).

Definition infra_cols : list string :=
  ["Compute & Kubernetes"; "Transactional DB"; "Analytics (BigQuery)";
   "Streaming"; "Monitoring"; "Auth (Firebase)"; "Support Tools (Intercom)"].

Definition staff_cols : list string :=
  ["Support Staff"; "DevOps/Infra Engineers"].

Section Script.

Variable a : Assumptions.

Definition years : list Z := range (start_year a) (end_year a + 1).

Definition n_years : Z := len years.

(** The list starts with one element and only grows, so [customers[-1]]
    always exists.  The elements are exact values: for a range of one year
    numpy keeps the one-element array as int64, which holds the same value
    for the integers a widget delivers. *)
Definition customers : list float64 :=
  fold_left
    (fun customers _ =>
       customers ++ [fmul (last customers NaN) (one_plus_percent (customers_growth a))])
    (range 1 n_years)
    [of_int (customers_start a)].

Definition vehicles : list float64 :=
  map (fun c => fmul c (of_int (vehicles_per_customer a))) customers.

Definition users : list float64 :=
  map (fun v => fmul v (of_int (riders_per_vehicle a))) vehicles.

(** [rate * population], a Python int times an array. *)
Definition scaled (rate : Z) (population : list float64) : list float64 :=
  map (fmul (of_int rate)) population.

Definition data : result (list (string * Series)) :=
  let arange := range 0 n_years in
  compute <- apply_inflation (scaled (cost_per_vehicle_compute a) vehicles) (infra_increase a) arange ;;
  db <- apply_inflation (scaled (cost_per_vehicle_db a) vehicles) (infra_increase a) arange ;;
  bigquery <- apply_inflation (scaled (cost_per_vehicle_bigquery a) vehicles) (infra_increase a) arange ;;
  streaming <- apply_inflation (scaled (cost_per_vehicle_streaming a) vehicles) (infra_increase a) arange ;;
  monitoring <- apply_inflation (scaled (cost_per_vehicle_monitoring a) vehicles) (infra_increase a) arange ;;
  auth <- apply_inflation (scaled (cost_per_user_auth a) users) (infra_increase a) arange ;;
  support <- apply_inflation (scaled (cost_per_user_support a) users) (infra_increase a) arange ;;
  staff_support <- apply_inflation (scaled (staff_support_per_customer a) customers) (staff_increase a) arange ;;
  staff_devops <- apply_inflation (scaled (staff_devops_per_customer a) customers) (staff_increase a) arange ;;
  Ok [("Year", Int64 years);
      ("Customers", Int64 (map astype_int customers));
      ("Vehicles", Int64 (map astype_int vehicles));
      ("Users", Int64 (map astype_int users));
      ("Compute & Kubernetes", Float64 compute);
      ("Transactional DB", Float64 db);
      ("Analytics (BigQuery)", Float64 bigquery);
      ("Streaming", Float64 streaming);
      ("Monitoring", Float64 monitoring);
      ("Auth (Firebase)", Float64 auth);
      ("Support Tools (Intercom)", Float64 support);
      ("Support Staff", Float64 staff_support);
      ("DevOps/Infra Engineers", Float64 staff_devops)].

(** [d[x] / d[y]] and [d[x] + d[y]] *)
Definition columns_binop (op : Series -> Series -> result Series)
  (d : DataFrame) (x y : string) : result Series :=
  s <- getitem d x ;;
  t <- getitem d y ;;
  op s t.

(** Totals and per-unit metrics, on the frame built from [data]. *)
Definition add_totals (d : DataFrame) : result DataFrame :=
  total_infra <- sum_axis1 d infra_cols ;;
  d <- setitem d "Total Infrastructure" total_infra ;;
  total_staff <- sum_axis1 d staff_cols ;;
  d <- setitem d "Total Staff" total_staff ;;
  grand <- columns_binop Series_add d "Total Infrastructure" "Total Staff" ;;
  setitem d "Grand Total" grand.

Definition add_per_unit (d : DataFrame) : result DataFrame :=
  per_vehicle <- columns_binop Series_div d "Grand Total" "Vehicles" ;;
  d <- setitem d "€ per Vehicle" per_vehicle ;;
  per_user <- columns_binop Series_div d "Grand Total" "Users" ;;
  d <- setitem d "€ per User" per_user ;;
  per_customer <- columns_binop Series_div d "Grand Total" "Customers" ;;
  setitem d "€ per Customer" per_customer.

(** The forecast table the page shows and exports. *)
Definition df : result DataFrame :=
  cols <- data ;;
  d <- pd_DataFrame cols ;;
  d <- add_totals d ;;
  add_per_unit d.

(** ** Excel export *)

Definition assumptions : list (string * Z) :=
  [("Start Year", start_year a);
   ("End Year", end_year a);
   ("Starting Customers", customers_start a);
   ("Annual Customer Growth (%)", customers_growth a);
   ("Vehicles per Customer", vehicles_per_customer a);
   ("Riders per Vehicle", riders_per_vehicle a);
   ("Infrastructure Inflation (%)", infra_increase a);
   ("Staff Inflation (%)", staff_increase a)].

(** [pd.DataFrame(list(assumptions.items()), columns=["Assumption", "Value"])] *)
Definition assumptions_df : DataFrame :=
  [("Assumption", Object (map fst assumptions));
   ("Value", Int64 (map snd assumptions))].

(** The workbook handed to the download button: sheets in writing order. *)
Definition excel_data : result (list (string * DataFrame)) :=
  forecast <- df ;;
  Ok [("Forecast", forecast); ("Assumptions", assumptions_df)].

End Script.

(** ** Main page: charts *)

(** A frame whose index is one of its former columns. *)
Record IndexedFrame : Type := mkIndexedFrame {
  frame_index : Series;
  frame_columns : DataFrame
}.

(** [d.set_index(name)]: the column becomes the index and leaves the
    columns. *)
Definition set_index (d : DataFrame) (name : string) : result IndexedFrame :=
  s <- getitem d name ;;
  Ok (mkIndexedFrame s (filter (fun c => negb (String.eqb (fst c) name)) d)).

(** [f[[names]]]: the listed columns, in the listed order. *)
Definition getitems (f : IndexedFrame) (names : list string)
  : result IndexedFrame :=
  cols <- mapM (fun name => s <- getitem (frame_columns f) name ;; Ok (name, s))
            names ;;
  Ok (mkIndexedFrame (frame_index f) cols).

(** The data of the area chart of the first tab. *)
Definition area_chart (d : DataFrame) : result IndexedFrame :=
  f <- set_index d "Year" ;;
  getitems f ["Total Infrastructure"; "Total Staff"; "Grand Total"].

(** The data of the line charts of the second tab, one per component. *)
Definition line_charts (d : DataFrame) : result (list IndexedFrame) :=
  mapM (fun col => f <- set_index d "Year" ;; getitems f [col])
    (infra_cols ++ staff_cols).

(** What one run of the script hands to the page: the two tabs, the table
    and the workbook of the download button, in the order of the script. *)
Record Page : Type := mkPage {
  tab1 : IndexedFrame;
  tab2 : list IndexedFrame;
  table : DataFrame;
  download : list (string * DataFrame)
}.

Definition page (a : Assumptions) : result Page :=
  d <- df a ;;
  total <- area_chart d ;;
  components <- line_charts d ;;
  workbook <- excel_data a ;;
  Ok (mkPage total components d workbook).

(** ** Reading the table *)

(** The cell of a float column, of an integer column, at row [i]. *)
Definition float_at (d : DataFrame) (name : string) (i : nat) : option float64 :=
  match getitem d name with
  | Ok (Float64 l) => nth_error l i
  | _ => None
  end.

Definition int_at (d : DataFrame) (name : string) (i : nat) : option Z :=
  match getitem d name with
  | Ok (Int64 l) => nth_error l i
  | _ => None
  end.

(** ** Row-wise description of the columns

    Each column of the table is a function of the row index.  The
    functions below give the exact value of every cell; the lemmas after
    them show that the script computes these values. *)

Local Open Scope Q_scope.

(** Number of years of the range. *)
Definition span (a : Assumptions) : nat :=
  Z.to_nat (end_year a + 1 - start_year a).

Definition percent_factor (pct : Z) : Q := 1 + inject_Z pct / 100.

(** The customer recurrence, unrolled [i] times. *)
Definition customers_q (a : Assumptions) (i : nat) : Q :=
  Nat.iter i (fun c => c * percent_factor (customers_growth a))
    (inject_Z (customers_start a)).

Definition vehicles_q (a : Assumptions) (i : nat) : Q :=
  customers_q a i * inject_Z (vehicles_per_customer a).

Definition users_q (a : Assumptions) (i : nat) : Q :=
  vehicles_q a i * inject_Z (riders_per_vehicle a).

Definition cost_q (rate : Z) (population : nat -> Q) (pct : Z) (i : nat) : Q :=
  inject_Z rate * population i * percent_factor pct ^ Z.of_nat i.

Definition finite_column (n : nat) (f : nat -> Q) : list float64 :=
  map (fun i => Finite (f i)) (seq 0 n).

Definition infra_components (a : Assumptions) : list (string * (nat -> Q)) :=
  [("Compute & Kubernetes",
    cost_q (cost_per_vehicle_compute a) (vehicles_q a) (infra_increase a));
   ("Transactional DB",
    cost_q (cost_per_vehicle_db a) (vehicles_q a) (infra_increase a));
   ("Analytics (BigQuery)",
    cost_q (cost_per_vehicle_bigquery a) (vehicles_q a) (infra_increase a));
   ("Streaming",
    cost_q (cost_per_vehicle_streaming a) (vehicles_q a) (infra_increase a));
   ("Monitoring",
    cost_q (cost_per_vehicle_monitoring a) (vehicles_q a) (infra_increase a));
   ("Auth (Firebase)",
    cost_q (cost_per_user_auth a) (users_q a) (infra_increase a));
   ("Support Tools (Intercom)",
    cost_q (cost_per_user_support a) (users_q a) (infra_increase a))].

Definition staff_components (a : Assumptions) : list (string * (nat -> Q)) :=
  [("Support Staff",
    cost_q (staff_support_per_customer a) (customers_q a) (staff_increase a));
   ("DevOps/Infra Engineers",
    cost_q (staff_devops_per_customer a) (customers_q a) (staff_increase a))].

(** Sum of the functions of a list at one row, in the order pandas adds. *)
Definition row_sum (fs : list (nat -> Q)) (i : nat) : Q :=
  fold_left (fun acc f => acc + f i) fs 0.

Definition total_infra_q (a : Assumptions) : nat -> Q :=
  row_sum (map snd (infra_components a)).

Definition total_staff_q (a : Assumptions) : nat -> Q :=
  row_sum (map snd (staff_components a)).

Definition grand_total_q (a : Assumptions) (i : nat) : Q :=
  total_infra_q a i + total_staff_q a i.

Definition truncated (population : nat -> Q) (i : nat) : Z :=
  astype_int (Finite (population i)).

(** A per-unit ratio: the grand total over the population as shown. *)
Definition per_unit (a : Assumptions) (population : nat -> Q) (i : nat) : float64 :=
  fdiv (Finite (grand_total_q a i)) (of_int (truncated population i)).

Definition data_table (a : Assumptions) : list (string * Series) :=
  [("Year", Int64 (years a));
   ("Customers", Int64 (map (truncated (customers_q a)) (seq 0 (span a))));
   ("Vehicles", Int64 (map (truncated (vehicles_q a)) (seq 0 (span a))));
   ("Users", Int64 (map (truncated (users_q a)) (seq 0 (span a))))]
  ++ map (fun c => (fst c, Float64 (finite_column (span a) (snd c))))
       (infra_components a ++ staff_components a).

Definition forecast_table (a : Assumptions) : DataFrame :=
  data_table a ++
  [("Total Infrastructure", Float64 (finite_column (span a) (total_infra_q a)));
   ("Total Staff", Float64 (finite_column (span a) (total_staff_q a)));
   ("Grand Total", Float64 (finite_column (span a) (grand_total_q a)));
   ("€ per Vehicle", Float64 (map (per_unit a (vehicles_q a)) (seq 0 (span a))));
   ("€ per User", Float64 (map (per_unit a (users_q a)) (seq 0 (span a))));
   ("€ per Customer", Float64 (map (per_unit a (customers_q a)) (seq 0 (span a))))].

(** The float columns that hold finite values, with their row functions. *)
Definition float_columns (a : Assumptions) : list (string * (nat -> Q)) :=
  infra_components a ++ staff_components a ++
  [("Total Infrastructure", total_infra_q a);
   ("Total Staff", total_staff_q a);
   ("Grand Total", grand_total_q a)].

Definition int_columns (a : Assumptions) : list (string * (nat -> Z)) :=
  [("Year", fun i => (start_year a + Z.of_nat i)%Z);
   ("Customers", truncated (customers_q a));
   ("Vehicles", truncated (vehicles_q a));
   ("Users", truncated (users_q a))].

Definition per_unit_columns (a : Assumptions) : list (string * (nat -> Q)) :=
  [("€ per Vehicle", vehicles_q a);
   ("€ per User", users_q a);
   ("€ per Customer", customers_q a)].

(** ** Vocabulary of the properties *)

(** The sum of a list of rationals. *)
Definition Qsum (l : list Q) : Q := fold_right Qplus 0 l.

(** The cells of a list of float columns at one row. *)
Definition cells_at (d : DataFrame) (i : nat) (names : list string) (values : list Q)
  : Prop :=
  Forall2 (fun name q => float_at d name i = Some (Finite q)) names values.

(** Two float64 values are the same value. *)
Definition feq (x y : float64) : Prop :=
  match x, y with
  | Finite p, Finite q => p == q
  | PosInf, PosInf | NegInf, NegInf | NaN, NaN => True
  | _, _ => False
  end.

(** Each ratio column with the integer column it divides by. *)
Definition per_unit_names : list (string * string) :=
  [("€ per Vehicle", "Vehicles");
   ("€ per User", "Users");
   ("€ per Customer", "Customers")].


(** The columns of the table by group. *)
Definition population_cols : list string := ["Customers"; "Vehicles"; "Users"].

Definition total_cols : list string :=
  ["Total Infrastructure"; "Total Staff"; "Grand Total"].

(** Lower bounds of the scale inputs and of the nine rates; the sidebar
    widgets enforce them (and more). *)
Record nonnegative_inputs (a : Assumptions) : Prop := {
  nn_customers : (0 <= customers_start a)%Z;
  nn_vehicles : (0 <= vehicles_per_customer a)%Z;
  nn_riders : (0 <= riders_per_vehicle a)%Z;
  nn_compute : (0 <= cost_per_vehicle_compute a)%Z;
  nn_db : (0 <= cost_per_vehicle_db a)%Z;
  nn_bigquery : (0 <= cost_per_vehicle_bigquery a)%Z;
  nn_streaming : (0 <= cost_per_vehicle_streaming a)%Z;
  nn_monitoring : (0 <= cost_per_vehicle_monitoring a)%Z;
  nn_auth : (0 <= cost_per_user_auth a)%Z;
  nn_support : (0 <= cost_per_user_support a)%Z;
  nn_staff_support : (0 <= staff_support_per_customer a)%Z;
  nn_staff_devops : (0 <= staff_devops_per_customer a)%Z
}.

(** A sheet of the workbook by name. *)
Fixpoint sheet (workbook : list (string * DataFrame)) (name : string)
  : option DataFrame :=
  match workbook with
  | [] => None
  | (k, d) :: rest => if String.eqb k name then Some d else sheet rest name
  end.

(** The five vehicle-based and the two staff components of [data]: the
    column, its rate, the population array it is scaled by and the
    inflation rate it compounds with. *)
Definition vehicle_and_staff_sources (a : Assumptions)
  : list (string * (Z * list float64 * Z)) :=
  [("Compute & Kubernetes", (cost_per_vehicle_compute a, vehicles a, infra_increase a));
   ("Transactional DB", (cost_per_vehicle_db a, vehicles a, infra_increase a));
   ("Analytics (BigQuery)", (cost_per_vehicle_bigquery a, vehicles a, infra_increase a));
   ("Streaming", (cost_per_vehicle_streaming a, vehicles a, infra_increase a));
   ("Monitoring", (cost_per_vehicle_monitoring a, vehicles a, infra_increase a));
   ("Support Staff", (staff_support_per_customer a, customers a, staff_increase a));
   ("DevOps/Infra Engineers", (staff_devops_per_customer a, customers a, staff_increase a))].

(** Each cost column with the inflation rate of its group. *)
Definition inflation_of (a : Assumptions) : list (string * Z) :=
  map (fun name => (name, infra_increase a)) infra_cols
  ++ map (fun name => (name, staff_increase a)) staff_cols.

(** The same inputs with another staff inflation, another infrastructure
    inflation. *)
Definition with_staff_increase (a : Assumptions) (pct : Z) : Assumptions :=
  mkAssumptions (start_year a) (end_year a) (customers_start a)
    (customers_growth a) (vehicles_per_customer a) (riders_per_vehicle a)
    (cost_per_vehicle_compute a) (cost_per_vehicle_db a)
    (cost_per_vehicle_bigquery a) (cost_per_vehicle_streaming a)
    (cost_per_vehicle_monitoring a) (cost_per_user_auth a)
    (cost_per_user_support a) (staff_support_per_customer a)
    (staff_devops_per_customer a) (infra_increase a) pct.

Definition with_infra_increase (a : Assumptions) (pct : Z) : Assumptions :=
  mkAssumptions (start_year a) (end_year a) (customers_start a)
    (customers_growth a) (vehicles_per_customer a) (riders_per_vehicle a)
    (cost_per_vehicle_compute a) (cost_per_vehicle_db a)
    (cost_per_vehicle_bigquery a) (cost_per_vehicle_streaming a)
    (cost_per_vehicle_monitoring a) (cost_per_user_auth a)
    (cost_per_user_support a) (staff_support_per_customer a)
    (staff_devops_per_customer a) pct (staff_increase a).

(** All columns of the table, in the order of the exported sheet. *)
Definition table_cols : list string :=
  ["Year"] ++ population_cols ++ infra_cols ++ staff_cols ++ total_cols
  ++ ["€ per Vehicle"; "€ per User"; "€ per Customer"].

(** Finite float64 values with equal rationals, position by position. *)
Definition same_values (xs ys : list float64) : Prop := Forall2 feq xs ys.

(** The value at position [i] of a float array is finite and at most
    [2^62], half of the int64 range: far enough inside it that the cast to
    int64 is defined whatever the rounding of the value. *)
Definition well_inside_int64 (array : list float64) (i : nat) : Prop :=
  exists p,
    nth_error array i = Some (Finite p) /\ p <= inject_Z (2 ^ 62).

(** ** Sample inputs *)

(** A range of one year. *)
Definition single_year : Assumptions :=
  mkAssumptions 2025 2025 10 50 50 10 50 15 10 8 5 1 1 1000 2000 5 5.

(** A range that ends before it starts. *)
Definition inverted_range : Assumptions :=
  mkAssumptions 2026 2025 10 50 50 10 50 15 10 8 5 1 1 1000 2000 5 5.

(** No vehicles per customer. *)
Definition zero_vehicles : Assumptions :=
  mkAssumptions 2025 2030 10 50 0 10 50 15 10 8 5 1 1 1000 2000 5 5.


(** The default inputs without infrastructure inflation. *)
Definition no_infra_inflation : Assumptions :=
  mkAssumptions 2025 2030 10 50 50 10 50 15 10 8 5 1 1 1000 2000 0 5.

(** The default inputs with another compute rate. *)
Definition cheaper_compute : Assumptions :=
  mkAssumptions 2025 2030 10 50 50 10 40 15 10 8 5 1 1 1000 2000 5 5.



(** * Proofs *)

(** *** Lists *)

Lemma nth_error_map_seq {A : Type} (f : nat -> A) (n i : nat) :
  (i < n)%nat -> nth_error (map f (seq 0 n)) i = Some (f i).
Proof.
  intros Hi. rewrite nth_error_map.
  replace (nth_error (seq 0 n) i) with (Some i); [reflexivity|].
  symmetry. rewrite nth_error_nth' with (d := O) by (rewrite length_seq; exact Hi).
  now rewrite seq_nth.
Qed.

Lemma nth_error_map_seq_None {A : Type} (f : nat -> A) (n i : nat) :
  (n <= i)%nat -> nth_error (map f (seq 0 n)) i = None.
Proof.
  intros Hi. apply nth_error_None. now rewrite length_map, length_seq.
Qed.

Lemma zip_with_map {A B C D : Type} (f : B -> C -> D) (g : A -> B) (h : A -> C)
  (l : list A) :
  zip_with f (map g l) (map h l) = map (fun i => f (g i) (h i)) l.
Proof.
  induction l as [|x l IH]; simpl; [reflexivity|]. now rewrite IH.
Qed.

Lemma align_with_map {A : Type} (f : float64 -> float64 -> float64)
  (g h : A -> float64) (l : list A) :
  align_with f (map g l) (map h l) = map (fun i => f (g i) (h i)) l.
Proof.
  induction l as [|x l IH]; simpl; [reflexivity|]. now rewrite IH.
Qed.

Lemma range_length (lo hi : Z) : List.length (range lo hi) = Z.to_nat (hi - lo).
Proof. unfold range. now rewrite length_map, length_seq. Qed.

Lemma arange_seq (n : nat) : range 0 (Z.of_nat n) = map Z.of_nat (seq 0 n).
Proof.
  unfold range. rewrite Z.sub_0_r, Nat2Z.id. reflexivity.
Qed.

(** *** Years *)

Lemma years_length (a : Assumptions) : List.length (years a) = span a.
Proof. unfold years. apply range_length. Qed.

Lemma n_years_span (a : Assumptions) : n_years a = Z.of_nat (span a).
Proof. unfold n_years, len. now rewrite years_length. Qed.

Lemma years_seq (a : Assumptions) :
  years a = map (fun i => (start_year a + Z.of_nat i)%Z) (seq 0 (span a)).
Proof. reflexivity. Qed.

(** *** Populations *)

Lemma one_plus_percent_finite (pct : Z) :
  one_plus_percent pct = Finite (percent_factor pct).
Proof. reflexivity. Qed.

Lemma customers_loop (a : Assumptions) (l : list Z) (k : nat) :
  fold_left
    (fun customers _ =>
       customers ++ [fmul (last customers NaN) (one_plus_percent (customers_growth a))])
    l (finite_column (S k) (customers_q a))
  = finite_column (S k + List.length l) (customers_q a).
Proof.
  revert k. induction l as [|x l IH]; intros k; cbn [fold_left List.length].
  - now rewrite Nat.add_0_r.
  - replace (S k + S (List.length l))%nat with (S (S k) + List.length l)%nat by lia.
    rewrite <- IH. f_equal.
    unfold finite_column.
    rewrite (seq_S (S k)), map_app. f_equal.
    rewrite (seq_S k), map_app. cbn [map]. rewrite last_last.
    reflexivity.
Qed.

Lemma customers_finite (a : Assumptions) :
  customers a = finite_column (S (span a - 1)) (customers_q a).
Proof.
  unfold customers.
  change [of_int (customers_start a)] with (finite_column 1 (customers_q a)).
  rewrite customers_loop, range_length, n_years_span.
  f_equal. lia.
Qed.

Lemma vehicles_finite (a : Assumptions) :
  vehicles a = finite_column (S (span a - 1)) (vehicles_q a).
Proof.
  unfold vehicles. rewrite customers_finite.
  unfold finite_column. now rewrite map_map.
Qed.

Lemma users_finite (a : Assumptions) :
  users a = finite_column (S (span a - 1)) (users_q a).
Proof.
  unfold users. rewrite vehicles_finite.
  unfold finite_column. now rewrite map_map.
Qed.

(** *** Cost components *)

Lemma fpow_finite_nat (x : Q) (i : nat) :
  fpow (Finite x) (Z.of_nat i) = Finite (x ^ Z.of_nat i).
Proof.
  destruct i as [|i]; [reflexivity|].
  rewrite Nat2Z.inj_succ. unfold Z.succ.
  destruct (Z.of_nat i) eqn:E; try lia; cbn [Z.add fpow];
    destruct (Qsign x); reflexivity.
Qed.

Lemma apply_inflation_finite (rate pct : Z) (pop : nat -> Q) (n : nat) :
  apply_inflation (scaled rate (finite_column n pop)) pct (range 0 (Z.of_nat n))
  = Ok (finite_column n (cost_q rate pop pct)).
Proof.
  unfold apply_inflation, broadcast, scaled, finite_column.
  rewrite arange_seq, !map_map, !length_map, Nat.eqb_refl, zip_with_map.
  f_equal. apply map_ext. intros i.
  rewrite one_plus_percent_finite, fpow_finite_nat. reflexivity.
Qed.

(** An empty year range: the one-element population arrays stretch to the
    empty array of year offsets. *)
Lemma apply_inflation_empty (rate pct : Z) (x : float64) :
  apply_inflation (scaled rate [x]) pct (range 0 0) = Ok [].
Proof. reflexivity. Qed.

Lemma data_ok (a : Assumptions) :
  (1 <= span a)%nat -> data a = Ok (data_table a).
Proof.
  intros Hn. unfold data.
  rewrite customers_finite, vehicles_finite, users_finite, n_years_span.
  replace (S (span a - 1)) with (span a) by lia.
  rewrite !apply_inflation_finite. cbn [bind].
  unfold finite_column at 1 2 3. rewrite !map_map. reflexivity.
Qed.

(** With an empty year range the population columns still have one row
    while the year and cost columns have none. *)
Lemma data_empty (a : Assumptions) :
  span a = O ->
  data a =
  Ok ([("Year", Int64 []);
       ("Customers", Int64 [truncated (customers_q a) 0]);
       ("Vehicles", Int64 [truncated (vehicles_q a) 0]);
       ("Users", Int64 [truncated (users_q a) 0])]
      ++ map (fun name => (name, Float64 [])) (infra_cols ++ staff_cols)).
Proof.
  intros Hn. unfold data.
  rewrite customers_finite, vehicles_finite, users_finite, n_years_span, years_seq.
  rewrite Hn. reflexivity.
Qed.

(** *** The frame *)

Lemma repeat_map_seq {A : Type} (x : A) (n : nat) :
  repeat x n = map (fun _ => x) (seq 0 n).
Proof.
  generalize O. induction n as [|n IH]; intros s; simpl; [reflexivity|].
  now rewrite <- IH.
Qed.

Lemma sum_fold_finite (n : nat) (fs : list (nat -> Q)) (acc : nat -> Q) :
  fold_left (fun acc col => zip_with fadd acc (map skipna col))
    (map (finite_column n) fs) (finite_column n acc)
  = finite_column n (fun i => fold_left (fun x f => x + f i) fs (acc i)).
Proof.
  revert acc. induction fs as [|f fs IH]; intros acc; cbn [map fold_left].
  - reflexivity.
  - rewrite <- (IH (fun i => acc i + f i)). f_equal.
    unfold finite_column. now rewrite map_map, zip_with_map.
Qed.

Lemma sum_axis1_finite (d : DataFrame) (n : nat) (cs : list (string * (nat -> Q))) :
  n_rows d = n ->
  Forall (fun c => getitem d (fst c) = Ok (Float64 (finite_column n (snd c)))) cs ->
  sum_axis1 d (map fst cs) = Ok (Float64 (finite_column n (row_sum (map snd cs)))).
Proof.
  intros Hn Hcs. unfold sum_axis1.
  assert (E : mapM (fun name => s <- getitem d name ;; to_float s) (map fst cs)
              = Ok (map (finite_column n) (map snd cs))).
  { induction Hcs as [|c cs Hc _ IH]; cbn [map mapM]; [reflexivity|].
    rewrite Hc, IH. reflexivity. }
  rewrite E. cbn [bind]. rewrite Hn, repeat_map_seq.
  change (map (fun _ : nat => Finite 0) (seq 0 n)) with (finite_column n (fun _ => 0)).
  now rewrite sum_fold_finite.
Qed.

Lemma setitem_new (d : DataFrame) (name : string) (s : Series) :
  Series_len s = n_rows d ->
  replace_column d name s = None ->
  setitem d name s = Ok (d ++ [(name, s)]).
Proof.
  intros Hlen Hnew. unfold setitem. now rewrite Hlen, Nat.eqb_refl, Hnew.
Qed.

Lemma finite_column_length (n : nat) (f : nat -> Q) :
  List.length (finite_column n f) = n.
Proof. unfold finite_column. now rewrite length_map, length_seq. Qed.

Lemma fadd_columns (n : nat) (f g : nat -> Q) :
  align_with fadd (finite_column n f) (finite_column n g)
  = finite_column n (fun i => f i + g i).
Proof. unfold finite_column. now rewrite align_with_map. Qed.

Lemma pd_DataFrame_data_table (a : Assumptions) :
  pd_DataFrame (data_table a) = Ok (data_table a).
Proof.
  unfold data_table. cbn [pd_DataFrame app map forallb snd Series_len
    infra_components staff_components].
  rewrite !finite_column_length, !length_map, !length_seq, years_length.
  now rewrite Nat.eqb_refl.
Qed.

Lemma pd_DataFrame_empty (x y z : Z) :
  pd_DataFrame
    ([("Year", Int64 []); ("Customers", Int64 [x]); ("Vehicles", Int64 [y]);
      ("Users", Int64 [z])]
     ++ map (fun name => (name, Float64 [])) (infra_cols ++ staff_cols))
  = Raise ValueError.
Proof. reflexivity. Qed.

Ltac new_column :=
  rewrite setitem_new;
  [ cbn [bind]
  | cbn [Series_len]; rewrite ?finite_column_length, ?length_map, ?length_seq;
    cbn [n_rows data_table app Series_len]; now rewrite years_length
  | reflexivity ].

Lemma add_totals_table (a : Assumptions) :
  add_totals (data_table a) =
  Ok (data_table a ++
      [("Total Infrastructure", Float64 (finite_column (span a) (total_infra_q a)));
       ("Total Staff", Float64 (finite_column (span a) (total_staff_q a)));
       ("Grand Total", Float64 (finite_column (span a) (grand_total_q a)))]).
Proof.
  unfold add_totals.
  change infra_cols with (map fst (infra_components a)).
  rewrite (sum_axis1_finite _ (span a));
    [ | cbn; apply years_length | repeat constructor ].
  cbn [bind]. new_column.
  change staff_cols with (map fst (staff_components a)).
  rewrite (sum_axis1_finite _ (span a));
    [ | cbn; apply years_length | repeat constructor ].
  cbn [bind]. new_column.
  unfold columns_binop.
  replace (getitem _ "Total Infrastructure")
    with (Ok (Float64 (finite_column (span a) (total_infra_q a)))) by reflexivity.
  cbn [bind].
  replace (getitem _ "Total Staff")
    with (Ok (Float64 (finite_column (span a) (total_staff_q a)))) by reflexivity.
  cbn [bind]. unfold Series_add, Series_binop. cbn [to_float bind].
  rewrite fadd_columns. new_column.
  rewrite <- !app_assoc. reflexivity.
Qed.

Lemma fdiv_columns (n : nat) (g pop : nat -> Q) :
  align_with fdiv (finite_column n g) (map of_int (map (truncated pop) (seq 0 n)))
  = map (fun i => fdiv (Finite (g i)) (of_int (truncated pop i))) (seq 0 n).
Proof. unfold finite_column. now rewrite map_map, align_with_map. Qed.

Ltac per_unit_column a name pop :=
  unfold columns_binop;
  replace (getitem _ "Grand Total")
    with (Ok (Float64 (finite_column (span a) (grand_total_q a)))) by reflexivity;
  cbn [bind];
  replace (getitem _ name)
    with (Ok (Int64 (map (truncated pop) (seq 0 (span a))))) by reflexivity;
  cbn [bind]; unfold Series_div, Series_binop; cbn [to_float bind];
  rewrite fdiv_columns.

Lemma add_per_unit_table (a : Assumptions) :
  add_per_unit
    (data_table a ++
      [("Total Infrastructure", Float64 (finite_column (span a) (total_infra_q a)));
       ("Total Staff", Float64 (finite_column (span a) (total_staff_q a)));
       ("Grand Total", Float64 (finite_column (span a) (grand_total_q a)))])
  = Ok (forecast_table a).
Proof.
  unfold add_per_unit.
  per_unit_column a "Vehicles" (vehicles_q a). new_column.
  per_unit_column a "Users" (users_q a). new_column.
  per_unit_column a "Customers" (customers_q a). new_column.
  unfold forecast_table. rewrite <- !app_assoc. reflexivity.
Qed.

(** The table the script builds for a non-empty year range. *)
Lemma df_table (a : Assumptions) :
  (1 <= span a)%nat -> df a = Ok (forecast_table a).
Proof.
  intros Hn. unfold df.
  rewrite (data_ok a Hn). cbn [bind].
  rewrite pd_DataFrame_data_table. cbn [bind].
  rewrite add_totals_table. cbn [bind].
  apply add_per_unit_table.
Qed.

(** With an empty year range the frame cannot be built. *)
Lemma df_empty_range (a : Assumptions) :
  span a = O -> df a = Raise ValueError.
Proof.
  intros Hn. unfold df.
  rewrite (data_empty a Hn). cbn [bind].
  now rewrite pd_DataFrame_empty.
Qed.

Lemma span_pos (a : Assumptions) :
  (start_year a <= end_year a)%Z -> (1 <= span a)%nat.
Proof. unfold span. lia. Qed.

Lemma span_zero (a : Assumptions) :
  (end_year a < start_year a)%Z -> span a = O.
Proof. unfold span. lia. Qed.

Lemma span_years (a : Assumptions) :
  (start_year a <= end_year a)%Z ->
  Z.of_nat (span a) = (end_year a - start_year a + 1)%Z.
Proof. unfold span. lia. Qed.

(** *** Cells of the table *)

Lemma df_inv (a : Assumptions) (d : DataFrame) :
  df a = Ok d -> (1 <= span a)%nat /\ d = forecast_table a.
Proof.
  intros Hd. destruct (span a) as [|n] eqn:Hn.
  - rewrite (df_empty_range a Hn) in Hd. discriminate.
  - rewrite df_table in Hd by lia. injection Hd as <-. split; [lia | reflexivity].
Qed.

Lemma n_rows_table (a : Assumptions) : n_rows (forecast_table a) = span a.
Proof. cbn. apply years_length. Qed.

Lemma getitem_float_columns (a : Assumptions) :
  Forall (fun c => getitem (forecast_table a) (fst c)
                   = Ok (Float64 (finite_column (span a) (snd c))))
    (float_columns a).
Proof. repeat constructor. Qed.

Lemma getitem_int_columns (a : Assumptions) :
  Forall (fun c => getitem (forecast_table a) (fst c)
                   = Ok (Int64 (map (snd c) (seq 0 (span a)))))
    (int_columns a).
Proof. repeat constructor. Qed.

Lemma getitem_per_unit_columns (a : Assumptions) :
  Forall (fun c => getitem (forecast_table a) (fst c)
                   = Ok (Float64 (map (per_unit a (snd c)) (seq 0 (span a)))))
    (per_unit_columns a).
Proof. repeat constructor. Qed.

Lemma float_cell (a : Assumptions) (name : string) (f : nat -> Q) (i : nat) :
  In (name, f) (float_columns a) -> (i < span a)%nat ->
  float_at (forecast_table a) name i = Some (Finite (f i)).
Proof.
  intros Hin Hi.
  pose proof (proj1 (Forall_forall _ _) (getitem_float_columns a) _ Hin) as E.
  cbn [fst snd] in E. unfold float_at. rewrite E.
  unfold finite_column. now rewrite nth_error_map_seq.
Qed.

Lemma int_cell (a : Assumptions) (name : string) (f : nat -> Z) (i : nat) :
  In (name, f) (int_columns a) -> (i < span a)%nat ->
  int_at (forecast_table a) name i = Some (f i).
Proof.
  intros Hin Hi.
  pose proof (proj1 (Forall_forall _ _) (getitem_int_columns a) _ Hin) as E.
  cbn [fst snd] in E. unfold int_at. rewrite E.
  now rewrite nth_error_map_seq.
Qed.

Lemma per_unit_cell (a : Assumptions) (name : string) (pop : nat -> Q) (i : nat) :
  In (name, pop) (per_unit_columns a) -> (i < span a)%nat ->
  float_at (forecast_table a) name i = Some (per_unit a pop i).
Proof.
  intros Hin Hi.
  pose proof (proj1 (Forall_forall _ _) (getitem_per_unit_columns a) _ Hin) as E.
  cbn [fst snd] in E. unfold float_at. rewrite E.
  now rewrite nth_error_map_seq.
Qed.

Lemma int_cell_inv (a : Assumptions) (name : string) (f : nat -> Z) (i : nat) (z : Z) :
  In (name, f) (int_columns a) ->
  int_at (forecast_table a) name i = Some z -> (i < span a)%nat /\ z = f i.
Proof.
  intros Hin Hz.
  destruct (Nat.lt_ge_cases i (span a)) as [Hi|Hi].
  - rewrite (int_cell a name f i Hin Hi) in Hz. injection Hz as <-. now split.
  - pose proof (proj1 (Forall_forall _ _) (getitem_int_columns a) _ Hin) as E.
    cbn [fst snd] in E. unfold int_at in Hz. rewrite E in Hz.
    now rewrite nth_error_map_seq_None in Hz.
Qed.

(** The population arrays, cell by cell. *)
Lemma population_cells (a : Assumptions) (i : nat) :
  (i < span a)%nat ->
  nth_error (customers a) i = Some (Finite (customers_q a i)) /\
  nth_error (vehicles a) i = Some (Finite (vehicles_q a i)) /\
  nth_error (users a) i = Some (Finite (users_q a i)).
Proof.
  intros Hi. rewrite customers_finite, vehicles_finite, users_finite.
  unfold finite_column. rewrite !nth_error_map_seq by lia. auto.
Qed.

(** *** Arithmetic of the row functions *)

Lemma Qpower_succ_nat (x : Q) (i : nat) :
  x ^ Z.of_nat (S i) == x ^ Z.of_nat i * x.
Proof.
  rewrite Nat2Z.inj_succ. unfold Z.succ.
  rewrite Qpower_plus' by lia. now rewrite Qpower_1_r.
Qed.

Lemma customers_q_succ (a : Assumptions) (i : nat) :
  customers_q a (S i) = customers_q a i * percent_factor (customers_growth a).
Proof. reflexivity. Qed.

(** The recurrence has the closed form of geometric growth. *)
Lemma customers_q_closed (a : Assumptions) (i : nat) :
  customers_q a i
  == inject_Z (customers_start a) * percent_factor (customers_growth a) ^ Z.of_nat i.
Proof.
  induction i as [|i IH].
  - cbn. ring.
  - rewrite customers_q_succ, IH, Qpower_succ_nat. ring.
Qed.

Lemma percent_factor_ge_1 (pct : Z) : (0 <= pct)%Z -> 1 <= percent_factor pct.
Proof.
  intros H. unfold percent_factor.
  assert (0 <= inject_Z pct) by (change 0 with (inject_Z 0); now rewrite <- Zle_Qle).
  assert (0 <= inject_Z pct / 100) by (apply Qle_shift_div_l; [reflexivity | lra]).
  lra.
Qed.

Lemma percent_factor_0 : percent_factor 0 == 1.
Proof. reflexivity. Qed.

Lemma inject_Z_nonneg (z : Z) : (0 <= z)%Z -> 0 <= inject_Z z.
Proof. intros H. change 0 with (inject_Z 0). now rewrite <- Zle_Qle. Qed.

Lemma power_nonneg (x : Q) (i : nat) : 1 <= x -> 0 <= x ^ Z.of_nat i.
Proof. intros H. apply Qpower_0_le. lra. Qed.


Section Monotone.

Variable a : Assumptions.
Hypothesis Hstart : (0 <= customers_start a)%Z.
Hypothesis Hgrowth : (0 <= customers_growth a)%Z.
Hypothesis Hvehicles : (0 <= vehicles_per_customer a)%Z.
Hypothesis Hriders : (0 <= riders_per_vehicle a)%Z.

Lemma customers_q_nonneg (i : nat) : 0 <= customers_q a i.
Proof.
  induction i as [|i IH].
  - now apply inject_Z_nonneg.
  - rewrite customers_q_succ.
    pose proof (percent_factor_ge_1 _ Hgrowth). nra.
Qed.


Lemma vehicles_q_nonneg (i : nat) : 0 <= vehicles_q a i.
Proof.
  unfold vehicles_q. pose proof (customers_q_nonneg i).
  pose proof (inject_Z_nonneg _ Hvehicles). nra.
Qed.


Lemma users_q_nonneg (i : nat) : 0 <= users_q a i.
Proof.
  unfold users_q. pose proof (vehicles_q_nonneg i).
  pose proof (inject_Z_nonneg _ Hriders). nra.
Qed.


End Monotone.




Lemma fold_sum_Qsum (fs : list (nat -> Q)) (i : nat) (x : Q) :
  fold_left (fun acc f => acc + f i) fs x == x + Qsum (map (fun f => f i) fs).
Proof.
  revert x. induction fs as [|f fs IH]; intros x; cbn [fold_left map Qsum fold_right].
  - ring.
  - rewrite IH. unfold Qsum. ring.
Qed.

Lemma row_sum_Qsum (fs : list (nat -> Q)) (i : nat) :
  row_sum fs i == Qsum (map (fun f => f i) fs).
Proof. unfold row_sum. rewrite fold_sum_Qsum. ring. Qed.

(** Truncation toward zero is the floor on non-negative values. *)
Lemma Qtrunc_floor (q : Q) : 0 <= q -> Qtrunc q = Qfloor q.
Proof.
  destruct q as [n d]. unfold Qle, Qtrunc, Qfloor. cbn [Qnum Qden].
  intros H. apply Z.quot_div_nonneg; lia.
Qed.

Lemma Qtrunc_mono (x y : Q) : 0 <= x -> x <= y -> (Qtrunc x <= Qtrunc y)%Z.
Proof.
  intros Hx Hxy. rewrite !Qtrunc_floor by lra. now apply Qfloor_resp_le.
Qed.

Lemma Qtrunc_inject_Z (z : Z) : Qtrunc (inject_Z z) = z.
Proof. unfold Qtrunc. cbn. apply Z.quot_1_r. Qed.

Lemma table_columns_length (a : Assumptions) :
  Forall (fun c => Series_len (snd c) = span a) (forecast_table a).
Proof.
  unfold forecast_table, data_table.
  repeat constructor; cbn [snd Series_len];
    rewrite ?finite_column_length, ?length_map, ?length_seq, ?years_length;
    reflexivity.
Qed.

(** * Properties of the forecast *)

(** ** Year range *)

(** C4: for every input with [end_year > start_year] the table has exactly
    [end_year - start_year + 1] rows (every column has that length) and the
    row at position [i] carries the year [start_year + i]: the years are
    contiguous and strictly increasing. *)
Theorem years_contiguous (a : Assumptions) :
  (start_year a < end_year a)%Z ->
  exists d,
    df a = Ok d /\
    Z.of_nat (n_rows d) = (end_year a - start_year a + 1)%Z /\
    Forall (fun c => Series_len (snd c) = n_rows d) d /\
    forall i, (i < n_rows d)%nat ->
              int_at d "Year" i = Some (start_year a + Z.of_nat i)%Z.
Proof.
  intros Hr. exists (forecast_table a).
  assert (Hn : (1 <= span a)%nat) by (apply span_pos; lia).
  rewrite n_rows_table. repeat split.
  - now apply df_table.
  - apply span_years. lia.
  - apply table_columns_length.
  - intros i Hi.
    apply (int_cell a "Year" (fun i => (start_year a + Z.of_nat i)%Z));
      [now left | exact Hi].
Qed.

Lemma years_contiguous_witness :
  exists d,
    df default_assumptions = Ok d /\
    Z.of_nat (n_rows d) = (2030 - 2025 + 1)%Z /\
    Forall (fun c => Series_len (snd c) = n_rows d) d /\
    forall i, (i < n_rows d)%nat -> int_at d "Year" i = Some (2025 + Z.of_nat i)%Z.
Proof.
  apply (years_contiguous default_assumptions). reflexivity.
Defined.

(** C1, as stated, fails: a range of a single year ([end_year = start_year])
    is not an error, the script builds a table of one row. *)
Lemma single_year_is_not_an_error :
  (end_year single_year <= start_year single_year)%Z /\
  exists d, df single_year = Ok d /\ n_rows d = 1%nat.
Proof.
  split; [cbn; lia|].
  exists (forecast_table single_year). split; [|reflexivity].
  apply df_table. unfold span. cbn. lia.
Qed.

(** C1, amended: when [end_year < start_year] the script fails with the
    ValueError pandas raises for columns of different lengths, and no table
    is built; when [end_year >= start_year] it builds the table, of
    [end_year - start_year + 1] rows. *)
Theorem year_range_outcome (a : Assumptions) :
  ((end_year a < start_year a)%Z -> df a = Raise ValueError) /\
  ((start_year a <= end_year a)%Z ->
   exists d, df a = Ok d /\
             Z.of_nat (n_rows d) = (end_year a - start_year a + 1)%Z).
Proof.
  split; intros Hr.
  - apply df_empty_range. now apply span_zero.
  - exists (forecast_table a). split.
    + apply df_table. now apply span_pos.
    + rewrite n_rows_table. now apply span_years.
Qed.

Lemma year_range_outcome_witness :
  df inverted_range = Raise ValueError /\
  exists d, df single_year = Ok d /\ Z.of_nat (n_rows d) = (2025 - 2025 + 1)%Z.
Proof.
  split.
  - apply (proj1 (year_range_outcome inverted_range)). reflexivity.
  - apply (proj2 (year_range_outcome single_year)). cbn. lia.
Defined.

(** C8: the single-year scenario.  With [start_year = end_year = 2025], ten
    customers, no growth, 50 vehicles per customer, 10 riders per vehicle
    and a compute rate of 50, whatever the other inputs, the table has one
    row, 500 vehicles and a Compute & Kubernetes cost of 25000. *)
Theorem single_year_scenario
  (db bigquery streaming monitoring auth support staff_support staff_devops
     infra staff : Z) :
  exists d q,
    df (mkAssumptions 2025 2025 10 0 50 10 50 db bigquery streaming monitoring
          auth support staff_support staff_devops infra staff) = Ok d /\
    n_rows d = 1%nat /\
    Forall (fun c => Series_len (snd c) = 1%nat) d /\
    int_at d "Vehicles" 0 = Some 500%Z /\
    float_at d "Compute & Kubernetes" 0 = Some (Finite q) /\
    q == 25000.
Proof.
  set (a := mkAssumptions _ _ _ _ _ _ _ _ _ _ _ _ _ _ _ _ _).
  assert (Hn : span a = 1%nat) by reflexivity.
  exists (forecast_table a),
    (cost_q (cost_per_vehicle_compute a) (vehicles_q a) (infra_increase a) 0).
  split; [apply df_table; lia|].
  split; [reflexivity|].
  split; [apply (table_columns_length a)|].
  split; [reflexivity|].
  split; [reflexivity|].
  reflexivity.
Qed.

(** ** Cost components *)

(** C3: the two user-based components, Auth and Support Tools, are at every
    row [i] the base rate times the users population at [i] (the vehicles
    population times the riders per vehicle, not the vehicles population)
    times [(1 + infra_increase/100)^i], the infrastructure inflation. *)
Theorem user_based_components (a : Assumptions) (d : DataFrame) (i : nat) :
  df a = Ok d -> (i < n_rows d)%nat ->
  exists v u auth support,
    nth_error (vehicles a) i = Some (Finite v) /\
    nth_error (users a) i = Some (Finite u) /\
    u == v * inject_Z (riders_per_vehicle a) /\
    float_at d "Auth (Firebase)" i = Some (Finite auth) /\
    auth == inject_Z (cost_per_user_auth a) * u
            * (1 + inject_Z (infra_increase a) / 100) ^ Z.of_nat i /\
    float_at d "Support Tools (Intercom)" i = Some (Finite support) /\
    support == inject_Z (cost_per_user_support a) * u
               * (1 + inject_Z (infra_increase a) / 100) ^ Z.of_nat i.
Proof.
  intros Hd Hi. apply df_inv in Hd as [Hn ->]. rewrite n_rows_table in Hi.
  destruct (population_cells a i Hi) as (_ & Hv & Hu).
  exists (vehicles_q a i), (users_q a i),
    (cost_q (cost_per_user_auth a) (users_q a) (infra_increase a) i),
    (cost_q (cost_per_user_support a) (users_q a) (infra_increase a) i).
  repeat split; try assumption; try reflexivity.
  - apply float_cell; [|exact Hi]. unfold float_columns. cbn. tauto.
  - apply float_cell; [|exact Hi]. unfold float_columns. cbn. tauto.
Qed.

Lemma user_based_components_witness :
  exists v u auth support,
    nth_error (vehicles default_assumptions) 1 = Some (Finite v) /\
    nth_error (users default_assumptions) 1 = Some (Finite u) /\
    u == v * inject_Z 10 /\
    float_at (forecast_table default_assumptions) "Auth (Firebase)" 1
    = Some (Finite auth) /\
    auth == inject_Z 1 * u * (1 + inject_Z 5 / 100) ^ Z.of_nat 1 /\
    float_at (forecast_table default_assumptions) "Support Tools (Intercom)" 1
    = Some (Finite support) /\
    support == inject_Z 1 * u * (1 + inject_Z 5 / 100) ^ Z.of_nat 1.
Proof.
  apply (user_based_components default_assumptions
           (forecast_table default_assumptions) 1).
  - vm_compute. reflexivity.
  - vm_compute. lia.
Defined.

(** C5: at every row the Total Infrastructure is the sum of the seven
    infrastructure components, the Total Staff is the sum of the two staff
    components and the Grand Total is the sum of the two totals. *)
Theorem totals_are_sums (a : Assumptions) (d : DataFrame) (i : nat) :
  df a = Ok d -> (i < n_rows d)%nat ->
  exists infra staff total_infra total_staff grand,
    cells_at d i infra_cols infra /\
    cells_at d i staff_cols staff /\
    float_at d "Total Infrastructure" i = Some (Finite total_infra) /\
    float_at d "Total Staff" i = Some (Finite total_staff) /\
    float_at d "Grand Total" i = Some (Finite grand) /\
    List.length infra = 7%nat /\
    List.length staff = 2%nat /\
    total_infra == Qsum infra /\
    total_staff == Qsum staff /\
    grand == total_infra + total_staff.
Proof.
  intros Hd Hi. apply df_inv in Hd as [Hn ->]. rewrite n_rows_table in Hi.
  exists (map (fun c => snd c i) (infra_components a)),
    (map (fun c => snd c i) (staff_components a)),
    (total_infra_q a i), (total_staff_q a i), (grand_total_q a i).
  assert (Hcell : forall name f, In (name, f) (float_columns a) ->
            float_at (forecast_table a) name i = Some (Finite (f i)))
    by (intros name f Hin; now apply float_cell).
  assert (Hin : forall c, In c (infra_components a ++ staff_components a) ->
            float_at (forecast_table a) (fst c) i = Some (Finite (snd c i))).
  { intros [name f] Hc. apply Hcell. unfold float_columns.
    rewrite app_assoc. apply in_or_app. now left. }
  split; [repeat constructor; apply (Hin (_, _)); cbn; tauto|].
  split; [repeat constructor; apply (Hin (_, _)); cbn; tauto|].
  split; [apply Hcell; unfold float_columns; cbn; tauto|].
  split; [apply Hcell; unfold float_columns; cbn; tauto|].
  split; [apply Hcell; unfold float_columns; cbn; tauto|].
  split; [reflexivity|]. split; [reflexivity|].
  split; [unfold total_infra_q; now rewrite row_sum_Qsum, !map_map|].
  split; [unfold total_staff_q; now rewrite row_sum_Qsum, !map_map|].
  reflexivity.
Qed.

Lemma totals_are_sums_witness :
  exists infra staff total_infra total_staff grand,
    cells_at (forecast_table default_assumptions) 2 infra_cols infra /\
    cells_at (forecast_table default_assumptions) 2 staff_cols staff /\
    float_at (forecast_table default_assumptions) "Total Infrastructure" 2
    = Some (Finite total_infra) /\
    float_at (forecast_table default_assumptions) "Total Staff" 2
    = Some (Finite total_staff) /\
    float_at (forecast_table default_assumptions) "Grand Total" 2
    = Some (Finite grand) /\
    List.length infra = 7%nat /\
    List.length staff = 2%nat /\
    total_infra == Qsum infra /\
    total_staff == Qsum staff /\
    grand == total_infra + total_staff.
Proof.
  apply (totals_are_sums default_assumptions
           (forecast_table default_assumptions) 2).
  - vm_compute. reflexivity.
  - vm_compute. lia.
Defined.

(** ** Per-unit ratios *)

Lemma Qsign_pos (q : Q) : 0 < q -> Qsign q = Gt.
Proof.
  unfold Qlt, Qsign. cbn. intros H. apply Z.compare_gt_iff. lia.
Qed.

Lemma Qsign_neg (q : Q) : q < 0 -> Qsign q = Lt.
Proof.
  unfold Qlt, Qsign. cbn. intros H. apply Z.compare_lt_iff. lia.
Qed.

Lemma Qsign_zero (q : Q) : q == 0 -> Qsign q = Eq.
Proof.
  unfold Qeq, Qsign. cbn. intros H. apply Z.compare_eq_iff. lia.
Qed.

Lemma Qsign_nonzero (q : Q) : ~ q == 0 -> Qsign q <> Eq.
Proof.
  unfold Qeq, Qsign. cbn. intros H E. apply Z.compare_eq_iff in E. lia.
Qed.

Lemma per_unit_names_cases (a : Assumptions) (ratio population : string) :
  In (ratio, population) per_unit_names ->
  exists pop,
    In (ratio, pop) (per_unit_columns a) /\
    In (population, truncated pop) (int_columns a) /\
    (pop = vehicles_q a \/ pop = users_q a \/ pop = customers_q a).
Proof.
  intros [E|[E|[E|[]]]]; injection E as <- <-.
  - exists (vehicles_q a). cbn. tauto.
  - exists (users_q a). cbn. tauto.
  - exists (customers_q a). cbn. tauto.
Qed.

(** C2, as stated, fails: with no vehicles per customer the Vehicles
    population of the first row is zero and the cost per vehicle of that
    row is an infinity, which goes into the table as it is. *)
Lemma zero_population_gives_infinity :
  exists d,
    df zero_vehicles = Ok d /\
    int_at d "Vehicles" 0 = Some 0%Z /\
    float_at d "€ per Vehicle" 0 = Some PosInf.
Proof.
  exists (forecast_table zero_vehicles). split.
  - apply df_table. unfold span. cbn. lia.
  - split; vm_compute; reflexivity.
Qed.

(** C2, amended: the script raises no exception for a zero population
    (it builds the table whenever [end_year >= start_year]), and in a row
    whose vehicles, users or customers population is zero the
    corresponding per-unit ratio is the IEEE quotient by zero: plus
    infinity when the grand total is positive, NaN when it is zero, minus
    infinity when it is negative. *)
Theorem zero_population_ratio (a : Assumptions) :
  (start_year a <= end_year a)%Z ->
  exists d,
    df a = Ok d /\
    forall (i : nat) (ratio population : string),
      In (ratio, population) per_unit_names ->
      int_at d population i = Some 0%Z ->
      exists g,
        float_at d "Grand Total" i = Some (Finite g) /\
        (0 < g -> float_at d ratio i = Some PosInf) /\
        (g == 0 -> float_at d ratio i = Some NaN) /\
        (g < 0 -> float_at d ratio i = Some NegInf).
Proof.
  intros Hr. exists (forecast_table a). split.
  - apply df_table. now apply span_pos.
  - intros i ratio population Hin Hz.
    destruct (per_unit_names_cases a _ _ Hin) as (pop & Hratio & Hpop & _).
    destruct (int_cell_inv a _ _ _ _ Hpop Hz) as [Hi Hzero].
    exists (grand_total_q a i). split.
    + apply float_cell; [|exact Hi]. unfold float_columns. cbn. tauto.
    + rewrite (per_unit_cell a ratio pop i Hratio Hi).
      unfold per_unit. fold (truncated pop i). rewrite <- Hzero.
      cbn [fdiv of_int Qsign inject_Z Qnum Z.compare].
      fold (Qsign (grand_total_q a i)).
      repeat split; intros Hg.
      * now rewrite Qsign_pos.
      * now rewrite Qsign_zero.
      * now rewrite Qsign_neg.
Qed.

Lemma zero_population_ratio_witness :
  (start_year zero_vehicles <= end_year zero_vehicles)%Z /\
  int_at (forecast_table zero_vehicles) "Vehicles" 0 = Some 0%Z /\
  float_at (forecast_table zero_vehicles) "€ per Vehicle" 0 = Some PosInf.
Proof.
  assert (Hr : (start_year zero_vehicles <= end_year zero_vehicles)%Z)
    by (cbn; lia).
  assert (Hz : int_at (forecast_table zero_vehicles) "Vehicles" 0 = Some 0%Z)
    by (vm_compute; reflexivity).
  split; [exact Hr|]. split; [exact Hz|].
  destruct (zero_population_ratio zero_vehicles Hr) as (d & Hd & H).
  apply df_inv in Hd as [_ ->].
  destruct (H O "€ per Vehicle" "Vehicles") as (g & Hg & Hpos & _);
    [cbn; tauto | exact Hz |].
  apply Hpos. vm_compute in Hg. injection Hg as <-. reflexivity.
Defined.



Lemma astype_int_in_range (q : Q) :
  (int64_min <= Qtrunc q <= int64_max)%Z -> astype_int (Finite q) = Qtrunc q.
Proof.
  intros [L U]. cbn [astype_int].
  apply Z.leb_le in L. apply Z.leb_le in U. now rewrite L, U.
Qed.





(** ** Inflation *)

(** C7, as stated, fails: without infrastructure inflation the components
    still follow the population.  With a growth of 50% the Compute &
    Kubernetes cost goes from 25000 in the first year to 37500 in the
    second. *)
Lemma no_inflation_still_grows :
  infra_increase no_infra_inflation = 0%Z /\
  exists d q0 q1,
    df no_infra_inflation = Ok d /\
    float_at d "Compute & Kubernetes" 0 = Some (Finite q0) /\
    float_at d "Compute & Kubernetes" 1 = Some (Finite q1) /\
    q0 == 25000 /\ q1 == 37500 /\ ~ q1 == q0.
Proof.
  split; [reflexivity|].
  exists (forecast_table no_infra_inflation),
    (cost_q 50 (vehicles_q no_infra_inflation) 0 0),
    (cost_q 50 (vehicles_q no_infra_inflation) 0 1).
  split; [apply df_table; unfold span; cbn; lia|].
  split; [vm_compute; reflexivity|].
  split; [vm_compute; reflexivity|].
  split; [reflexivity|]. split; [reflexivity|].
  intros C. vm_compute in C. discriminate.
Qed.

Lemma infra_cols_cases (a : Assumptions) (name : string) :
  In name infra_cols ->
  exists rate pop,
    In (name, cost_q rate pop (infra_increase a)) (infra_components a) /\
    (0 <= cost_per_vehicle_compute a -> 0 <= cost_per_vehicle_db a ->
     0 <= cost_per_vehicle_bigquery a -> 0 <= cost_per_vehicle_streaming a ->
     0 <= cost_per_vehicle_monitoring a -> 0 <= cost_per_user_auth a ->
     0 <= cost_per_user_support a -> 0 <= rate)%Z /\
    (pop = vehicles_q a \/ pop = users_q a).
Proof.
  intros [<-|[<-|[<-|[<-|[<-|[<-|[<-|[]]]]]]]];
    eexists; eexists; (split; [cbn; tauto|]); (split; [|tauto]); intros; assumption.
Qed.

Lemma population_growth (a : Assumptions) (pop : nat -> Q) (i : nat) :
  pop = vehicles_q a \/ pop = users_q a ->
  pop i == pop O * percent_factor (customers_growth a) ^ Z.of_nat i.
Proof.
  intros [-> | ->]; unfold users_q, vehicles_q;
    rewrite (customers_q_closed a i), (customers_q_closed a 0);
    cbn [Z.of_nat Qpower]; ring.
Qed.

Lemma cost_q_no_inflation (rate : Z) (pop : nat -> Q) (i : nat) :
  cost_q rate pop 0 i == inject_Z rate * pop i.
Proof.
  unfold cost_q. rewrite percent_factor_0, Qpower_1. ring.
Qed.

(** C7, amended: with [infra_increase = 0] every infrastructure component
    at row [i] is its value in the first row times the population growth
    [(1 + customers_growth/100)^i]; it keeps its first-row value when the
    customer growth is zero as well. *)
Theorem no_inflation_components
  (a : Assumptions) (d : DataFrame) (i : nat) (name : string) :
  infra_increase a = 0%Z ->
  df a = Ok d -> (i < n_rows d)%nat ->
  In name infra_cols ->
  exists q0 qi,
    float_at d name 0 = Some (Finite q0) /\
    float_at d name i = Some (Finite qi) /\
    qi == q0 * (1 + inject_Z (customers_growth a) / 100) ^ Z.of_nat i /\
    (customers_growth a = 0%Z -> qi == q0).
Proof.
  intros Hinfl Hd Hi Hname.
  apply df_inv in Hd as [Hn ->]. rewrite n_rows_table in Hi.
  destruct (infra_cols_cases a name Hname) as (rate & pop & Hin & _ & Hpop).
  rewrite Hinfl in Hin.
  assert (Hcol : In (name, cost_q rate pop 0) (float_columns a))
    by (unfold float_columns; apply in_or_app; now left).
  exists (cost_q rate pop 0 0), (cost_q rate pop 0 i).
  split; [apply float_cell; [exact Hcol | lia]|].
  split; [apply float_cell; [exact Hcol | exact Hi]|].
  assert (E : cost_q rate pop 0 i
              == cost_q rate pop 0 0
                 * percent_factor (customers_growth a) ^ Z.of_nat i).
  { rewrite !cost_q_no_inflation, (population_growth a pop i Hpop). ring. }
  split; [exact E|].
  intros Hg. rewrite E, Hg, percent_factor_0, Qpower_1. ring.
Qed.

Lemma no_inflation_components_witness :
  exists q0 qi,
    float_at (forecast_table no_infra_inflation) "Streaming" 0 = Some (Finite q0) /\
    float_at (forecast_table no_infra_inflation) "Streaming" 3 = Some (Finite qi) /\
    qi == q0 * (1 + inject_Z 50 / 100) ^ Z.of_nat 3 /\
    (50%Z = 0%Z -> qi == q0).
Proof.
  apply (no_inflation_components no_infra_inflation
           (forecast_table no_infra_inflation) 3 "Streaming").
  - reflexivity.
  - vm_compute. reflexivity.
  - vm_compute. lia.
  - cbn. tauto.
Defined.


(** ** Monotonicity *)

Lemma sidebar_range_nonnegative (a : Assumptions) :
  sidebar_range a -> nonnegative_inputs a.
Proof. intros []. constructor; lia. Qed.

Lemma default_assumptions_in_range : sidebar_range default_assumptions.
Proof. constructor; cbn; lia. Qed.

Section NonDecreasing.

Variable a : Assumptions.
Hypothesis Hnn : nonnegative_inputs a.
Hypothesis Hgrowth : (0 <= customers_growth a)%Z.
Hypothesis Hinfra : (0 <= infra_increase a)%Z.
Hypothesis Hstaff : (0 <= staff_increase a)%Z.







End NonDecreasing.




(** ** Excel export *)

(** C9, as stated, fails: the Assumptions sheet has eight rows, none of
    them a cost rate.  Two inputs that differ in the compute rate export
    the same Assumptions sheet. *)
Lemma cost_rates_are_not_exported :
  cost_per_vehicle_compute default_assumptions
  <> cost_per_vehicle_compute cheaper_compute /\
  exists w1 w2 s labels,
    excel_data default_assumptions = Ok w1 /\
    excel_data cheaper_compute = Ok w2 /\
    sheet w1 "Assumptions" = Some s /\
    sheet w2 "Assumptions" = Some s /\
    getitem s "Assumption" = Ok (Object labels) /\
    List.length labels = 8%nat.
Proof.
  split; [cbn; lia|].
  exists [("Forecast", forecast_table default_assumptions);
          ("Assumptions", assumptions_df default_assumptions)],
    [("Forecast", forecast_table cheaper_compute);
     ("Assumptions", assumptions_df cheaper_compute)],
    (assumptions_df default_assumptions),
    (map fst (assumptions default_assumptions)).
  split; [unfold excel_data; rewrite df_table by (unfold span; cbn; lia);
          reflexivity|].
  split; [unfold excel_data; rewrite df_table by (unfold span; cbn; lia);
          reflexivity|].
  repeat split.
Qed.

(** C9, amended: the export holds two sheets, "Forecast" with the forecast
    table and "Assumptions" with eight labelled values: the two years, the
    starting customers, the customer growth, the vehicles per customer, the
    riders per vehicle and the two inflation rates.  The nine per-unit cost
    rates are not part of it. *)
Theorem export_sheets (a : Assumptions) :
  (start_year a <= end_year a)%Z ->
  exists d,
    df a = Ok d /\
    excel_data a =
    Ok [("Forecast", d);
        ("Assumptions",
         [("Assumption",
           Object ["Start Year"; "End Year"; "Starting Customers";
                   "Annual Customer Growth (%)"; "Vehicles per Customer";
                   "Riders per Vehicle"; "Infrastructure Inflation (%)";
                   "Staff Inflation (%)"]);
          ("Value",
           Int64 [start_year a; end_year a; customers_start a;
                  customers_growth a; vehicles_per_customer a;
                  riders_per_vehicle a; infra_increase a; staff_increase a])])].
Proof.
  intros Hr. exists (forecast_table a).
  assert (Hd : df a = Ok (forecast_table a)) by (apply df_table; now apply span_pos).
  split; [exact Hd|].
  unfold excel_data. rewrite Hd. reflexivity.
Qed.

Lemma export_sheets_witness :
  exists d,
    df default_assumptions = Ok d /\
    excel_data default_assumptions =
    Ok [("Forecast", d);
        ("Assumptions",
         [("Assumption",
           Object ["Start Year"; "End Year"; "Starting Customers";
                   "Annual Customer Growth (%)"; "Vehicles per Customer";
                   "Riders per Vehicle"; "Infrastructure Inflation (%)";
                   "Staff Inflation (%)"]);
          ("Value", Int64 [2025; 2030; 10; 50; 50; 10; 5; 5]%Z)])].
Proof.
  apply (export_sheets default_assumptions). cbn. lia.
Defined.

(** * Further properties of the script *)

(** ** The customer recurrence *)


Lemma customers_length (a : Assumptions) :
  List.length (customers a) = S (span a - 1).
Proof. rewrite customers_finite. apply finite_column_length. Qed.

(** The loop that appends [customers[-1] * (1 + growth/100)] computes
    geometric growth: the element at position [i] is
    [customers_start * (1 + growth/100)^i]. *)
Theorem customers_closed_form (a : Assumptions) (i : nat) :
  (i < List.length (customers a))%nat ->
  exists c,
    nth_error (customers a) i = Some (Finite c) /\
    c == inject_Z (customers_start a)
         * (1 + inject_Z (customers_growth a) / 100) ^ Z.of_nat i.
Proof.
  intros Hi. rewrite customers_length in Hi.
  exists (customers_q a i). split.
  - rewrite customers_finite. unfold finite_column.
    now rewrite nth_error_map_seq.
  - apply customers_q_closed.
Qed.

Lemma customers_closed_form_witness :
  exists c,
    nth_error (customers default_assumptions) 4 = Some (Finite c) /\
    c == inject_Z 10 * (1 + inject_Z 50 / 100) ^ Z.of_nat 4.
Proof.
  apply (customers_closed_form default_assumptions 4). vm_compute. lia.
Defined.



(** ** Cost components, continued *)

(** The five vehicle-based components are at every row the rate times the
    vehicles of that row times [(1 + infra_increase/100)^i]; the two staff
    components are the rate times the customers of that row times
    [(1 + staff_increase/100)^i].  The populations are the arrays before
    truncation. *)
Theorem vehicle_and_staff_components
  (a : Assumptions) (d : DataFrame) (i : nat)
  (name : string) (rate pct : Z) (population : list float64) :
  df a = Ok d -> (i < n_rows d)%nat ->
  In (name, (rate, population, pct)) (vehicle_and_staff_sources a) ->
  exists p q,
    nth_error population i = Some (Finite p) /\
    float_at d name i = Some (Finite q) /\
    q == inject_Z rate * p * (1 + inject_Z pct / 100) ^ Z.of_nat i.
Proof.
  intros Hd Hi Hin. apply df_inv in Hd as [Hn ->]. rewrite n_rows_table in Hi.
  destruct (population_cells a i Hi) as (Hc & Hv & _).
  assert (K : forall pop,
             nth_error population i = Some (Finite (pop i)) ->
             In (name, cost_q rate pop pct) (float_columns a) ->
             exists p q,
               nth_error population i = Some (Finite p) /\
               float_at (forecast_table a) name i = Some (Finite q) /\
               q == inject_Z rate * p * (1 + inject_Z pct / 100) ^ Z.of_nat i).
  { intros pop Hp Hcol. exists (pop i), (cost_q rate pop pct i).
    split; [exact Hp|]. split; [now apply float_cell|]. reflexivity. }
  unfold vehicle_and_staff_sources in Hin.
  destruct Hin as [E|[E|[E|[E|[E|[E|[E|[]]]]]]]]; injection E as <- <- <- <-;
    first [ apply (K (vehicles_q a)); [exact Hv | unfold float_columns; cbn; tauto]
          | apply (K (customers_q a)); [exact Hc | unfold float_columns; cbn; tauto] ].
Qed.

Lemma vehicle_and_staff_components_witness :
  exists p q,
    nth_error (customers default_assumptions) 2 = Some (Finite p) /\
    float_at (forecast_table default_assumptions) "Support Staff" 2
    = Some (Finite q) /\
    q == inject_Z 1000 * p * (1 + inject_Z 5 / 100) ^ Z.of_nat 2.
Proof.
  apply (vehicle_and_staff_components default_assumptions
           (forecast_table default_assumptions) 2 "Support Staff" 1000 5
           (customers default_assumptions)).
  - vm_compute. reflexivity.
  - vm_compute. lia.
  - cbn. tauto.
Defined.

Lemma staff_cols_cases (a : Assumptions) (name : string) :
  In name staff_cols ->
  exists rate,
    In (name, cost_q rate (customers_q a) (staff_increase a)) (staff_components a).
Proof.
  intros [<-|[<-|[]]]; eexists; cbn; tauto.
Qed.

Lemma population_step (a : Assumptions) (pop : nat -> Q) (i : nat) :
  pop = customers_q a \/ pop = vehicles_q a \/ pop = users_q a ->
  pop (S i) == pop i * percent_factor (customers_growth a).
Proof.
  intros [-> | [-> | ->]]; unfold users_q, vehicles_q;
    rewrite customers_q_succ; ring.
Qed.

Lemma cost_q_step (a : Assumptions) (rate pct : Z) (pop : nat -> Q) (i : nat) :
  pop = customers_q a \/ pop = vehicles_q a \/ pop = users_q a ->
  cost_q rate pop pct (S i)
  == cost_q rate pop pct i * percent_factor (customers_growth a)
     * percent_factor pct.
Proof.
  intros Hpop. unfold cost_q.
  rewrite (population_step a pop i Hpop), Qpower_succ_nat. ring.
Qed.

(** From one year to the next every cost component is multiplied by the
    customer growth and by the inflation of its group:
    [cost[i+1] = cost[i] * (1 + growth/100) * (1 + inflation/100)], with the
    infrastructure inflation for the seven infrastructure components and
    the staff inflation for the two staff components. *)
Theorem year_over_year_compounding
  (a : Assumptions) (d : DataFrame) (i : nat) (name : string) (pct : Z) :
  df a = Ok d -> (S i < n_rows d)%nat ->
  In (name, pct) (inflation_of a) ->
  exists x y,
    float_at d name i = Some (Finite x) /\
    float_at d name (S i) = Some (Finite y) /\
    y == x * (1 + inject_Z (customers_growth a) / 100)
           * (1 + inject_Z pct / 100).
Proof.
  intros Hd Hi Hin. apply df_inv in Hd as [Hn ->]. rewrite n_rows_table in Hi.
  assert (K : exists rate pop,
             In (name, cost_q rate pop pct) (float_columns a) /\
             (pop = customers_q a \/ pop = vehicles_q a \/ pop = users_q a)).
  { unfold inflation_of in Hin. apply in_app_or in Hin as [Hin|Hin];
      apply in_map_iff in Hin as (name' & E & Hname); injection E as <- <-.
    - destruct (infra_cols_cases a name' Hname) as (rate & pop & Hc & _ & Hpop).
      exists rate, pop. split; [unfold float_columns; apply in_or_app; now left|].
      tauto.
    - destruct (staff_cols_cases a name' Hname) as (rate & Hc).
      exists rate, (customers_q a). split; [|tauto].
      unfold float_columns. apply in_or_app. right. apply in_or_app. now left. }
  destruct K as (rate & pop & Hcol & Hpop).
  exists (cost_q rate pop pct i), (cost_q rate pop pct (S i)).
  split; [apply float_cell; [exact Hcol | lia]|].
  split; [apply float_cell; [exact Hcol | exact Hi]|].
  apply (cost_q_step a rate pct pop i Hpop).
Qed.

Lemma year_over_year_compounding_witness :
  exists x y,
    float_at (forecast_table default_assumptions) "Monitoring" 0
    = Some (Finite x) /\
    float_at (forecast_table default_assumptions) "Monitoring" 1
    = Some (Finite y) /\
    y == x * (1 + inject_Z 50 / 100) * (1 + inject_Z 5 / 100).
Proof.
  apply (year_over_year_compounding default_assumptions
           (forecast_table default_assumptions) 0 "Monitoring" 5).
  - vm_compute. reflexivity.
  - vm_compute. lia.
  - cbn. tauto.
Defined.

(** ** The table as a whole *)

(** The table has nineteen columns with distinct labels, in this order: the
    year, the three populations, the seven infrastructure and the two staff
    components, the three totals and the three per-unit ratios.  This is
    the header of the exported Forecast sheet. *)
Theorem table_header (a : Assumptions) (d : DataFrame) :
  df a = Ok d ->
  map fst d = table_cols /\ NoDup (map fst d) /\ List.length d = 19%nat.
Proof.
  intros Hd. apply df_inv in Hd as [_ ->].
  split; [reflexivity|]. split; [|reflexivity].
  change (map fst (forecast_table a)) with table_cols.
  unfold table_cols, population_cols, infra_cols, staff_cols, total_cols.
  cbn [app].
  repeat (constructor; [cbn; intros H; repeat (destruct H as [H|H]; [discriminate H|]); exact H|]).
  constructor.
Qed.

Lemma table_header_witness :
  map fst (forecast_table default_assumptions) = table_cols /\
  NoDup (map fst (forecast_table default_assumptions)) /\
  List.length (forecast_table default_assumptions) = 19%nat.
Proof.
  apply (table_header default_assumptions). vm_compute. reflexivity.
Defined.

(** ** Signs and sizes *)

Lemma cost_q_nonneg (rate pct : Z) (pop : nat -> Q) (i : nat) :
  (0 <= rate)%Z -> (0 <= pct)%Z -> 0 <= pop i -> 0 <= cost_q rate pop pct i.
Proof.
  intros Hr Hp H0. unfold cost_q.
  pose proof (inject_Z_nonneg _ Hr).
  pose proof (power_nonneg _ i (percent_factor_ge_1 _ Hp)).
  assert (0 <= inject_Z rate * pop i) by nra. nra.
Qed.

Lemma fold_sum_nonneg (fs : list (nat -> Q)) (i : nat) (x : Q) :
  Forall (fun f => 0 <= f i) fs -> 0 <= x ->
  0 <= fold_left (fun acc f => acc + f i) fs x.
Proof.
  intros H. revert x. induction H as [|f fs Hf _ IH]; intros x Hx; cbn [fold_left].
  - exact Hx.
  - apply IH. lra.
Qed.

Section NonNegative.

Variable a : Assumptions.
Hypothesis Hnn : nonnegative_inputs a.
Hypothesis Hgrowth : (0 <= customers_growth a)%Z.
Hypothesis Hinfra : (0 <= infra_increase a)%Z.
Hypothesis Hstaff : (0 <= staff_increase a)%Z.

Lemma infra_components_nonneg (i : nat) :
  Forall (fun c => 0 <= snd c i) (infra_components a).
Proof.
  destruct Hnn.
  repeat constructor; cbn [snd]; apply cost_q_nonneg;
    auto using vehicles_q_nonneg, users_q_nonneg.
Qed.

Lemma staff_components_nonneg (i : nat) :
  Forall (fun c => 0 <= snd c i) (staff_components a).
Proof.
  destruct Hnn.
  repeat constructor; cbn [snd]; apply cost_q_nonneg;
    auto using customers_q_nonneg.
Qed.

Lemma float_columns_nonneg (i : nat) :
  Forall (fun c => 0 <= snd c i) (float_columns a).
Proof.
  assert (Hi : 0 <= total_infra_q a i).
  { apply fold_sum_nonneg; [|lra]. apply Forall_map. apply infra_components_nonneg. }
  assert (Hs : 0 <= total_staff_q a i).
  { apply fold_sum_nonneg; [|lra]. apply Forall_map. apply staff_components_nonneg. }
  unfold float_columns. apply Forall_app. split; [apply infra_components_nonneg|].
  apply Forall_app. split; [apply staff_components_nonneg|].
  repeat constructor; cbn [snd]; try assumption.
  unfold grand_total_q. lra.
Qed.

End NonNegative.



(** ** Populations as shown *)

Lemma truncated_in_range (pop : nat -> Q) (i : nat) :
  0 <= pop i -> pop i <= inject_Z (2 ^ 62) ->
  truncated pop i = Qtrunc (pop i) /\ (0 <= Qtrunc (pop i) <= 2 ^ 62)%Z.
Proof.
  intros H0 Hb.
  assert (L : (0 <= Qtrunc (pop i))%Z).
  { change 0%Z with (Qtrunc 0). apply Qtrunc_mono; [apply Qle_refl | exact H0]. }
  assert (U : (Qtrunc (pop i) <= 2 ^ 62)%Z).
  { rewrite <- (Qtrunc_inject_Z (2 ^ 62)). now apply Qtrunc_mono. }
  split; [|split; assumption].
  unfold truncated. apply astype_int_in_range.
  unfold int64_min, int64_max. split; lia.
Qed.

Lemma well_inside_int64_intro (array : list float64) (i : nat) (p : Q) :
  nth_error array i = Some (Finite p) -> p <= inject_Z (2 ^ 62) ->
  well_inside_int64 array i.
Proof. intros H U. exists p. auto. Qed.

(** ** Inputs within the widget bounds *)

Section SidebarRange.

Variable a : Assumptions.
Hypothesis Hin : sidebar_range a.

Let Hnn : nonnegative_inputs a := sidebar_range_nonnegative a Hin.

Lemma customers_q_ge_1 (i : nat) : 1 <= customers_q a i.
Proof.
  destruct Hin. induction i as [|i IH].
  - unfold customers_q, Qle. cbn. lia.
  - rewrite customers_q_succ.
    assert (1 <= percent_factor (customers_growth a))
      by (apply percent_factor_ge_1; lia).
    nra.
Qed.

Lemma vehicles_q_ge_customers (i : nat) : customers_q a i <= vehicles_q a i.
Proof.
  destruct Hin. unfold vehicles_q. pose proof (customers_q_ge_1 i).
  assert (1 <= inject_Z (vehicles_per_customer a))
    by (unfold Qle; cbn; lia).
  nra.
Qed.

Lemma users_q_ge_vehicles (i : nat) : vehicles_q a i <= users_q a i.
Proof.
  destruct Hin. unfold users_q.
  pose proof (customers_q_ge_1 i). pose proof (vehicles_q_ge_customers i).
  assert (1 <= inject_Z (riders_per_vehicle a))
    by (unfold Qle; cbn; lia).
  nra.
Qed.

Lemma truncated_ge_1 (pop : nat -> Q) (i : nat) :
  1 <= pop i -> pop i <= inject_Z (2 ^ 62) ->
  truncated pop i = Qtrunc (pop i) /\ (1 <= truncated pop i <= 2 ^ 62)%Z.
Proof.
  intros H Hb.
  destruct (truncated_in_range pop i) as (E & _ & U); [lra | exact Hb |].
  rewrite E. split; [reflexivity|]. split; [|exact U].
  change 1%Z with (Qtrunc 1). apply Qtrunc_mono; [lra | exact H].
Qed.

Lemma grand_total_q_nonneg (i : nat) : 0 <= grand_total_q a i.
Proof.
  destruct Hin.
  assert (F : Forall (fun c => 0 <= snd c i) (float_columns a))
    by (apply float_columns_nonneg; [exact Hnn | lia | lia | lia]).
  apply (proj1 (Forall_forall _ _) F ("Grand Total", grand_total_q a)).
  unfold float_columns. cbn. tauto.
Qed.

End SidebarRange.

Lemma per_unit_finite (a : Assumptions) (pop : nat -> Q) (i : nat) :
  (1 <= truncated pop i)%Z ->
  per_unit a pop i
  = Finite (grand_total_q a i / inject_Z (truncated pop i)).
Proof.
  intros H. unfold per_unit, fdiv, of_int.
  assert (S : Qsign (inject_Z (truncated pop i)) = Gt).
  { unfold Qsign, inject_Z. cbn [Qnum]. apply Z.compare_gt_iff. lia. }
  now rewrite S.
Qed.

(** For inputs within the bounds of the widgets, in a row whose users (the
    largest population) are at most [2^62], every population shown
    is an int64 of at least one, so every per-unit ratio is a finite,
    non-negative number, the grand total divided by that population: no
    infinity and no NaN reaches the row. *)
Theorem ratios_finite_in_sidebar_range
  (a : Assumptions) (d : DataFrame) (i : nat) (ratio population : string) :
  sidebar_range a ->
  df a = Ok d -> (i < n_rows d)%nat ->
  well_inside_int64 (users a) i ->
  In (ratio, population) per_unit_names ->
  exists g t r,
    float_at d "Grand Total" i = Some (Finite g) /\
    int_at d population i = Some t /\
    (1 <= t < 2 ^ 63)%Z /\
    float_at d ratio i = Some (Finite r) /\
    r == g / inject_Z t /\
    0 <= r.
Proof.
  intros Hsr Hd Hi (u & Hu & Hfit) Hname.
  apply df_inv in Hd as [Hn ->]. rewrite n_rows_table in Hi.
  destruct (population_cells a i Hi) as (_ & _ & U).
  assert (E : u = users_q a i) by congruence. subst u.
  destruct (per_unit_names_cases a _ _ Hname) as (pop & Hratio & Hpop & Hcase).
  pose proof (customers_q_ge_1 a Hsr i) as C1.
  pose proof (vehicles_q_ge_customers a Hsr i) as CV.
  pose proof (users_q_ge_vehicles a Hsr i) as VU.
  assert (H1 : 1 <= pop i) by (destruct Hcase as [-> | [-> | ->]]; lra).
  assert (H2 : pop i <= users_q a i) by (destruct Hcase as [-> | [-> | ->]]; lra).
  destruct (truncated_ge_1 pop i H1) as (_ & Ht & Hu62); [lra|].
  pose proof (grand_total_q_nonneg a Hsr i) as Hg.
  exists (grand_total_q a i), (truncated pop i),
    (grand_total_q a i / inject_Z (truncated pop i)).
  split; [apply float_cell; [unfold float_columns; cbn; tauto | exact Hi]|].
  split; [exact (int_cell a _ _ i Hpop Hi)|].
  split; [lia|].
  split; [rewrite (per_unit_cell a ratio pop i Hratio Hi);
          now rewrite per_unit_finite|].
  split; [reflexivity|].
  apply Qle_shift_div_l.
  - change 0 with (inject_Z 0). rewrite <- Zlt_Qlt. lia.
  - lra.
Qed.

Lemma ratios_finite_in_sidebar_range_witness :
  exists g t r,
    float_at (forecast_table default_assumptions) "Grand Total" 1
    = Some (Finite g) /\
    int_at (forecast_table default_assumptions) "Users" 1 = Some t /\
    (1 <= t < 2 ^ 63)%Z /\
    float_at (forecast_table default_assumptions) "€ per User" 1
    = Some (Finite r) /\
    r == g / inject_Z t /\
    0 <= r.
Proof.
  apply (ratios_finite_in_sidebar_range default_assumptions
           (forecast_table default_assumptions) 1 "€ per User" "Users").
  - exact default_assumptions_in_range.
  - vm_compute. reflexivity.
  - vm_compute. lia.
  - apply (well_inside_int64_intro _ _ (users_q default_assumptions 1));
      [vm_compute; reflexivity | vm_compute; discriminate].
  - cbn. tauto.
Defined.

Lemma quotient_antitone (g : Q) (s t : Z) :
  0 <= g -> (1 <= s)%Z -> (s <= t)%Z -> g / inject_Z t <= g / inject_Z s.
Proof.
  intros Hg Hs Hst.
  assert (Ps : 0 < inject_Z s) by (unfold Qlt; cbn; lia).
  assert (Pt : 0 < inject_Z t) by (unfold Qlt; cbn; lia).
  assert (Lst : inject_Z s <= inject_Z t) by (rewrite <- Zle_Qle; exact Hst).
  apply Qle_shift_div_r; [exact Pt|].
  assert (Hq : 0 <= g / inject_Z s) by (apply Qle_shift_div_l; [exact Ps | lra]).
  assert (E : g == g / inject_Z s * inject_Z s) by (field; lra).
  revert Hq E. generalize (g / inject_Z s). intros h Hq E. nra.
Qed.

(** For inputs within the bounds of the widgets, in a row whose users are
    at most [2^62], the populations shown are ordered, customers
    at most vehicles at most users, and the three ratios are ordered the
    other way: the cost per user is at most the cost per vehicle, which is
    at most the cost per customer. *)
Theorem cost_per_unit_ordering (a : Assumptions) (d : DataFrame) (i : nat) :
  sidebar_range a ->
  df a = Ok d -> (i < n_rows d)%nat ->
  well_inside_int64 (users a) i ->
  exists customers_i vehicles_i users_i per_customer per_vehicle per_user,
    int_at d "Customers" i = Some customers_i /\
    int_at d "Vehicles" i = Some vehicles_i /\
    int_at d "Users" i = Some users_i /\
    (1 <= customers_i <= vehicles_i)%Z /\
    (vehicles_i <= users_i < 2 ^ 63)%Z /\
    float_at d "€ per Customer" i = Some (Finite per_customer) /\
    float_at d "€ per Vehicle" i = Some (Finite per_vehicle) /\
    float_at d "€ per User" i = Some (Finite per_user) /\
    per_user <= per_vehicle /\ per_vehicle <= per_customer.
Proof.
  intros Hsr Hd Hi (u & Hu & Hfit).
  apply df_inv in Hd as [Hn ->]. rewrite n_rows_table in Hi.
  destruct (population_cells a i Hi) as (_ & _ & U).
  assert (E : u = users_q a i) by congruence. subst u.
  pose proof (customers_q_ge_1 a Hsr i) as C1.
  pose proof (vehicles_q_ge_customers a Hsr i) as CV.
  pose proof (users_q_ge_vehicles a Hsr i) as VU.
  pose proof (grand_total_q_nonneg a Hsr i) as Hg.
  destruct (truncated_ge_1 (customers_q a) i) as (Ec & Tc & _); [lra | lra |].
  destruct (truncated_ge_1 (vehicles_q a) i) as (Ev & _ & _); [lra | lra |].
  destruct (truncated_ge_1 (users_q a) i) as (Eu & _ & Tu62); [lra | lra |].
  assert (Tcv : (truncated (customers_q a) i <= truncated (vehicles_q a) i)%Z)
    by (rewrite Ec, Ev; apply Qtrunc_mono; lra).
  assert (Tvu : (truncated (vehicles_q a) i <= truncated (users_q a) i)%Z)
    by (rewrite Ev, Eu; apply Qtrunc_mono; lra).
  assert (Tu : (truncated (users_q a) i < 2 ^ 63)%Z) by lia.
  exists (truncated (customers_q a) i), (truncated (vehicles_q a) i),
    (truncated (users_q a) i),
    (grand_total_q a i / inject_Z (truncated (customers_q a) i)),
    (grand_total_q a i / inject_Z (truncated (vehicles_q a) i)),
    (grand_total_q a i / inject_Z (truncated (users_q a) i)).
  split; [apply int_cell; [cbn; tauto | exact Hi]|].
  split; [apply int_cell; [cbn; tauto | exact Hi]|].
  split; [apply int_cell; [cbn; tauto | exact Hi]|].
  split; [lia|]. split; [lia|].
  split; [rewrite (per_unit_cell a _ (customers_q a) i); [|cbn; tauto|exact Hi];
          rewrite per_unit_finite; [reflexivity | lia]|].
  split; [rewrite (per_unit_cell a _ (vehicles_q a) i); [|cbn; tauto|exact Hi];
          rewrite per_unit_finite; [reflexivity | lia]|].
  split; [rewrite (per_unit_cell a _ (users_q a) i); [|cbn; tauto|exact Hi];
          rewrite per_unit_finite; [reflexivity | lia]|].
  split; apply quotient_antitone; try assumption; lia.
Qed.

Lemma cost_per_unit_ordering_witness :
  exists customers_i vehicles_i users_i per_customer per_vehicle per_user,
    int_at (forecast_table default_assumptions) "Customers" 3 = Some customers_i /\
    int_at (forecast_table default_assumptions) "Vehicles" 3 = Some vehicles_i /\
    int_at (forecast_table default_assumptions) "Users" 3 = Some users_i /\
    (1 <= customers_i <= vehicles_i)%Z /\
    (vehicles_i <= users_i < 2 ^ 63)%Z /\
    float_at (forecast_table default_assumptions) "€ per Customer" 3
    = Some (Finite per_customer) /\
    float_at (forecast_table default_assumptions) "€ per Vehicle" 3
    = Some (Finite per_vehicle) /\
    float_at (forecast_table default_assumptions) "€ per User" 3
    = Some (Finite per_user) /\
    per_user <= per_vehicle /\ per_vehicle <= per_customer.
Proof.
  apply (cost_per_unit_ordering default_assumptions
           (forecast_table default_assumptions) 3).
  - exact default_assumptions_in_range.
  - vm_compute. reflexivity.
  - vm_compute. lia.
  - apply (well_inside_int64_intro _ _ (users_q default_assumptions 3));
      [vm_compute; reflexivity | vm_compute; discriminate].
Defined.

(** ** [apply_inflation] on arbitrary arrays *)

Lemma fpow_finite (x : Q) (k : Z) :
  (0 <= k)%Z \/ ~ x == 0 -> fpow (Finite x) k = Finite (x ^ k).
Proof.
  intros H. destruct k as [|p|p]; [reflexivity| |]; cbn [fpow].
  - destruct (Qsign x); reflexivity.
  - destruct H as [H|H]; [lia|].
    pose proof (Qsign_nonzero x H). destruct (Qsign x); congruence.
Qed.

Lemma apply_inflation_values (rate_percent : Z) (qs : list Q) (ks : list Z) :
  List.length qs = List.length ks ->
  Forall (fun k => (0 <= k)%Z \/ ~ percent_factor rate_percent == 0) ks ->
  apply_inflation (map Finite qs) rate_percent ks
  = Ok (map Finite
          (zip_with (fun q k => q * percent_factor rate_percent ^ k) qs ks)).
Proof.
  intros Hlen Hks. unfold apply_inflation, broadcast.
  rewrite !length_map, Hlen, Nat.eqb_refl. f_equal.
  rewrite one_plus_percent_finite.
  revert ks Hlen Hks. induction qs as [|q qs IH]; intros [|k ks] Hlen Hks;
    cbn in Hlen; try discriminate; [reflexivity|].
  inversion Hks as [|? ? Hk Hks']; subst.
  cbn [map zip_with]. rewrite (fpow_finite _ _ Hk), IH by (assumption || lia).
  reflexivity.
Qed.

Lemma same_values_map (f g : Q -> Z -> Q) (qs : list Q) (ks : list Z) :
  (forall q k, In k ks -> f q k == g q k) ->
  same_values (map Finite (zip_with f qs ks)) (map Finite (zip_with g qs ks)).
Proof.
  unfold same_values. revert ks.
  induction qs as [|q qs IH]; intros [|k ks] H; cbn [zip_with map];
    try constructor.
  - cbn. apply H. now left.
  - apply IH. intros q' k' Hk. apply H. now right.
Qed.

Lemma zip_with_fst (qs : list Q) (ks : list Z) :
  List.length qs = List.length ks ->
  zip_with (fun q _ => q) qs ks = qs.
Proof.
  revert ks. induction qs as [|q qs IH]; intros [|k ks] H; cbn in *;
    try discriminate; [reflexivity|]. f_equal. apply IH. lia.
Qed.

(** No inflation, no change: with a rate of 0% (for any year offsets) or
    with year offsets that are all 0 (for any rate), [apply_inflation]
    returns the finite costs it was given. *)
Theorem apply_inflation_neutral
  (qs : list Q) (rate_percent : Z) (years_index : list Z) :
  List.length qs = List.length years_index ->
  rate_percent = 0%Z \/ Forall (fun k => k = 0%Z) years_index ->
  exists out,
    apply_inflation (map Finite qs) rate_percent years_index = Ok out /\
    same_values out (map Finite qs).
Proof.
  intros Hlen Hcase. eexists. split.
  - apply apply_inflation_values; [exact Hlen|].
    destruct Hcase as [-> | Hz].
    + apply Forall_forall. intros k _. right. rewrite percent_factor_0.
      intros C. vm_compute in C. discriminate.
    + apply Forall_forall. intros k Hk. left.
      rewrite (proj1 (Forall_forall _ _) Hz k Hk). lia.
  - rewrite <- (zip_with_fst qs years_index Hlen) at 2.
    apply same_values_map. intros q k Hk.
    destruct Hcase as [-> | Hz].
    + rewrite percent_factor_0, Qpower_1. ring.
    + rewrite (proj1 (Forall_forall _ _) Hz k Hk). cbn [Qpower]. ring.
Qed.

Lemma apply_inflation_neutral_witness :
  exists out,
    apply_inflation (map Finite [100; 250]) 0 [3; 7]%Z = Ok out /\
    same_values out (map Finite [100; 250]).
Proof.
  apply (apply_inflation_neutral [100; 250] 0 [3; 7]%Z).
  - reflexivity.
  - left. reflexivity.
Defined.

(** ** The two inflation rates *)

(** The staff inflation has no effect outside the staff group: the years,
    the populations, the seven infrastructure components and their total
    are the same columns for every staff inflation. *)
Theorem staff_inflation_is_local
  (a : Assumptions) (pct : Z) (d d' : DataFrame) (name : string) :
  df a = Ok d ->
  df (with_staff_increase a pct) = Ok d' ->
  In name (["Year"] ++ population_cols ++ infra_cols ++ ["Total Infrastructure"]) ->
  getitem d' name = getitem d name /\ exists s, getitem d name = Ok s.
Proof.
  intros Hd Hd' Hname.
  apply df_inv in Hd as [_ ->]. apply df_inv in Hd' as [_ ->].
  cbn in Hname.
  repeat (destruct Hname as [<- | Hname];
          [split; [reflexivity | eexists; reflexivity]|]).
  contradiction.
Qed.

Lemma staff_inflation_is_local_witness :
  getitem (forecast_table (with_staff_increase default_assumptions 40)) "Streaming"
  = getitem (forecast_table default_assumptions) "Streaming" /\
  exists s, getitem (forecast_table default_assumptions) "Streaming" = Ok s.
Proof.
  apply (staff_inflation_is_local default_assumptions 40).
  - vm_compute. reflexivity.
  - vm_compute. reflexivity.
  - cbn. tauto.
Defined.

(** The infrastructure inflation has no effect outside the infrastructure
    group: the years, the populations, the two staff components and their
    total are the same columns for every infrastructure inflation. *)
Theorem infra_inflation_is_local
  (a : Assumptions) (pct : Z) (d d' : DataFrame) (name : string) :
  df a = Ok d ->
  df (with_infra_increase a pct) = Ok d' ->
  In name (["Year"] ++ population_cols ++ staff_cols ++ ["Total Staff"]) ->
  getitem d' name = getitem d name /\ exists s, getitem d name = Ok s.
Proof.
  intros Hd Hd' Hname.
  apply df_inv in Hd as [_ ->]. apply df_inv in Hd' as [_ ->].
  cbn in Hname.
  repeat (destruct Hname as [<- | Hname];
          [split; [reflexivity | eexists; reflexivity]|]).
  contradiction.
Qed.

Lemma infra_inflation_is_local_witness :
  getitem (forecast_table (with_infra_increase default_assumptions 40)) "Total Staff"
  = getitem (forecast_table default_assumptions) "Total Staff" /\
  exists s, getitem (forecast_table default_assumptions) "Total Staff" = Ok s.
Proof.
  apply (infra_inflation_is_local default_assumptions 40).
  - vm_compute. reflexivity.
  - vm_compute. reflexivity.
  - cbn. tauto.
Defined.

(** ** Main page *)

(** For a non-empty year range every chart of the page has its data: the
    area chart shows the three totals and each of the nine line charts one
    component, in the order of [infra_cols + staff_cols]; every chart is
    indexed by the years and shows columns of the table unchanged, and no
    column label is missing. *)
Theorem page_charts (a : Assumptions) :
  (start_year a <= end_year a)%Z ->
  exists p d,
    page a = Ok p /\ df a = Ok d /\ table p = d /\
    excel_data a = Ok (download p) /\
    frame_index (tab1 p) = Int64 (years a) /\
    map fst (frame_columns (tab1 p)) = total_cols /\
    map (fun f => map fst (frame_columns f)) (tab2 p)
    = map (fun col => [col]) (infra_cols ++ staff_cols) /\
    Forall (fun f => frame_index f = Int64 (years a)) (tab2 p) /\
    Forall (fun f => forall c, In c (frame_columns f) -> getitem d (fst c) = Ok (snd c))
      (tab1 p :: tab2 p).
Proof.
  intros Hr.
  assert (Hd : df a = Ok (forecast_table a)) by (apply df_table; now apply span_pos).
  assert (Ht : area_chart (forecast_table a)
               = Ok (mkIndexedFrame (Int64 (years a))
                       [("Total Infrastructure",
                         Float64 (finite_column (span a) (total_infra_q a)));
                        ("Total Staff",
                         Float64 (finite_column (span a) (total_staff_q a)));
                        ("Grand Total",
                         Float64 (finite_column (span a) (grand_total_q a)))]))
    by reflexivity.
  assert (Hl : line_charts (forecast_table a)
               = Ok (map (fun c => mkIndexedFrame (Int64 (years a))
                                     [(fst c, Float64 (finite_column (span a) (snd c)))])
                       (infra_components a ++ staff_components a)))
    by reflexivity.
  eexists. exists (forecast_table a).
  split; [unfold page, excel_data; rewrite Hd; cbn [bind]; rewrite Ht, Hl;
          reflexivity|].
  cbn [table tab1 tab2 download frame_index frame_columns].
  split; [exact Hd|]. split; [reflexivity|].
  split; [unfold excel_data; now rewrite Hd|].
  split; [reflexivity|]. split; [reflexivity|]. split; [reflexivity|].
  split.
  - repeat constructor.
  - repeat constructor; intros c Hc; cbn in Hc;
      repeat (destruct Hc as [<- | Hc]; [reflexivity|]); contradiction.
Qed.

Lemma page_charts_witness :
  exists p d,
    page default_assumptions = Ok p /\ df default_assumptions = Ok d /\
    table p = d /\
    excel_data default_assumptions = Ok (download p) /\
    frame_index (tab1 p) = Int64 (years default_assumptions) /\
    map fst (frame_columns (tab1 p)) = total_cols /\
    map (fun f => map fst (frame_columns f)) (tab2 p)
    = map (fun col => [col]) (infra_cols ++ staff_cols) /\
    Forall (fun f => frame_index f = Int64 (years default_assumptions)) (tab2 p) /\
    Forall (fun f => forall c, In c (frame_columns f) -> getitem d (fst c) = Ok (snd c))
      (tab1 p :: tab2 p).
Proof.
  apply (page_charts default_assumptions). cbn. lia.
Defined.
